(** * Confounder: the confounder-validation pipeline

    A shallow embedding of the core of the Confounder package
    (detection/statistical.py, detection/validator.py, estimation/bias.py,
    estimation/sensitivity.py, correction/explainer.py and
    correction/suggester.py) together with the properties its
    specification states about it.

    Conventions of the embedding:
    - a Python [float] is a binary64 value, [PrimFloat.float];
    - a Python [str] is the [string] of its UTF-8 bytes: equality,
      concatenation and the [in] operator are those of the bytes, and
      [len] counts the bytes that start a character ([char_count]);
    - [str.lower] follows the Unicode tables, which the code does not
      define: where arbitrary text is lower-cased (the column matcher, the
      loader) it is a variable [str_lower]; where the result is compared
      with the ASCII words "high", "medium" and "low", or ASCII capitals
      are all that matters, it is its ASCII part [lower];
    - a raised exception is the [Raise] constructor of [may_raise];
    - the numerical libraries (statsmodels' regression fit, scipy's
      Pearson test, the text of a formatted float) are variables of the
      sections that use them: the code calls them, it does not define them. *)

From Stdlib Require Import Floats Ascii String ZArith Sorted Permutation.
From stdpp Require Import gmap strings list pretty.

Local Open Scope string_scope.
Local Open Scope list_scope.
Local Open Scope float_scope.

(** ** Exceptions and outcomes *)

Inductive exn : Type :=
  | KeyError (label : string)
  | ValueError (msg : string)
  | AttributeError (msg : string).

Inductive may_raise (A : Type) : Type :=
  | Ret (a : A)
  | Raise (e : exn).

Arguments Ret {A} a.
Arguments Raise {A} e.

Definition bind {A B : Type} (m : may_raise A) (k : A -> may_raise B) : may_raise B :=
  match m with
  | Ret a => k a
  | Raise e => Raise e
  end.

Notation "'do' x <- m ; k" := (bind m (fun x => k))
  (at level 10, x name, m at level 100, k at level 200).

(** [try: ... except Exception as e: ...] *)
Definition try_except {A : Type} (body : may_raise A) (handler : exn -> may_raise A)
    : may_raise A :=
  match body with
  | Ret a => Ret a
  | Raise e => handler e
  end.

(** [str(e)] *)
Definition str_exn (e : exn) : string :=
  match e with
  | KeyError label => "'" +:+ label +:+ "'"
  | ValueError msg => msg
  | AttributeError msg => msg
  end.

(** ** Strings: [str.lower], [len] and the [in] operator *)

(** [str.lower] on ASCII text.  No character outside ASCII is lower-cased
    to a letter of "high", "medium" or "low", so a label compares equal to
    one of these words after [str.lower] exactly when it does after
    [lower]. *)
Definition lower_ascii (c : ascii) : ascii :=
  let n := nat_of_ascii c in
  if (65 <=? n)%nat && (n <=? 90)%nat then ascii_of_nat (n + 32) else c.

Fixpoint lower (s : string) : string :=
  match s with
  | EmptyString => EmptyString
  | String c s' => String (lower_ascii c) (lower s')
  end.

Fixpoint starts_with (s p : string) {struct p} : bool :=
  match p, s with
  | EmptyString, _ => true
  | String _ _, EmptyString => false
  | String a p', String b s' => if Ascii.eqb a b then starts_with s' p' else false
  end.

(** [len(s)]: the characters of a text are counted by the bytes that start
    one, which are the bytes that are not continuation bytes
    ([0x80]..[0xBF]). *)
Definition starts_char (c : ascii) : bool :=
  let n := nat_of_ascii c in negb ((128 <=? n)%nat && (n <=? 191)%nat).

Fixpoint char_count (s : string) : nat :=
  match s with
  | EmptyString => 0%nat
  | String c s' => ((if starts_char c then 1 else 0) + char_count s')%nat
  end.

(** [contains hay needle] is Python's [needle in hay]: a text occurs in
    another one exactly when its bytes occur in the bytes of the other. *)
Fixpoint contains (hay needle : string) : bool :=
  starts_with hay needle ||
  match hay with
  | EmptyString => false
  | String _ hay' => contains hay' needle
  end.

(** The mathematical reading of [needle in hay]. *)
Definition is_substring (needle hay : string) : Prop :=
  exists pre post, hay = pre +:+ needle +:+ post.

(** ** Data model *)

(** llm/parser.py *)
Record ConfounderCandidate : Type := mkCandidate {
  name : string;
  description : string;
  causes_treatment_because : string;
  causes_outcome_because : string;
  severity : string
}.

(** detection/validator.py *)
Record ValidatedConfounder : Type := mkValidated {
  candidate : ConfounderCandidate;
  is_measured : bool;
  matched_column : option string;
  causes_treatment_pval : option float;
  causes_outcome_pval : option float;
  is_statistically_significant : bool;
  bias_magnitude : option float;
  bias_percentage : option float
}.

Definition validation_status (v : ValidatedConfounder) : string :=
  if negb (is_measured v) then "unmeasured_theoretical"
  else if is_statistically_significant v then "measured_confirmed"
  else "measured_rejected".

(** ** Candidate matcher (detection/validator.py) *)

Section Matcher.

(** [str.lower] *)
Variable str_lower : string -> string.

Definition match_candidate_to_column
    (cand : ConfounderCandidate) (columns : list string) : option string :=
  let c_name := str_lower (name cand) in
  if existsb (String.eqb c_name) (map str_lower columns) then
    List.find (fun col => String.eqb (str_lower col) c_name) columns
  else
    List.find
      (fun col =>
         (contains (str_lower col) c_name || contains c_name (str_lower col))
         && (3 <=? char_count c_name)%nat)
      columns.

End Matcher.

(** ** Data frames

    A frame is a list of column labels and a list of rows, a row holding
    one cell per label.  Cells are floats and a missing value is NaN, as in
    a numeric pandas frame.  A lookup by label takes the first column of
    that name; the frames of the pipeline carry distinct labels (the loader
    reads them from a CSV header, which pandas de-duplicates), and the
    properties that promise a result assume so. *)

Record DataFrame : Type := mkFrame {
  columns : list string;
  rows : list (list float)
}.

Definition len (df : DataFrame) : nat := length (rows df).

Fixpoint get_loc (label : string) (labels : list string) : option nat :=
  match labels with
  | [] => None
  | l :: ls =>
      if String.eqb l label then Some 0%nat
      else match get_loc label ls with
           | Some i => Some (S i)
           | None => None
           end
  end.

(** Positions of the requested labels; a label that is absent raises
    [KeyError]. *)
Fixpoint locate (labels : list string) (cols : list string) : may_raise (list nat) :=
  match labels with
  | [] => Ret []
  | l :: ls =>
      match get_loc l cols with
      | None => Raise (KeyError l)
      | Some i => do rest <- locate ls cols; Ret (i :: rest)
      end
  end.

Definition cell (row : list float) (i : nat) : float := nth i row nan.

Definition take_cells (idxs : list nat) (row : list float) : list float :=
  map (cell row) idxs.

Definition complete (row : list float) : bool :=
  forallb (fun v => negb (is_nan v)) row.

(** [data[labels]] *)
Definition select (data : DataFrame) (labels : list string) : may_raise DataFrame :=
  do idxs <- locate labels (columns data);
  Ret (mkFrame labels (map (take_cells idxs) (rows data))).

(** [df.dropna()] *)
Definition dropna (df : DataFrame) : DataFrame :=
  mkFrame (columns df) (List.filter complete (rows df)).

(** [df.dropna(subset=labels)] *)
Definition dropna_subset (df : DataFrame) (labels : list string) : may_raise DataFrame :=
  do idxs <- locate labels (columns df);
  Ret (mkFrame (columns df)
         (List.filter (fun row => complete (take_cells idxs row)) (rows df))).

(** [df[label]] as a series of values *)
Definition column (df : DataFrame) (label : string) : may_raise (list float) :=
  match get_loc label (columns df) with
  | None => Raise (KeyError label)
  | Some i => Ret (map (fun row => cell row i) (rows df))
  end.

(** [df[label].unique()], repetitions kept (the code only takes the set of
    these values).  When the label is repeated in the frame, [df[label]] is
    a frame, which has no [unique]. *)
Definition column_unique (df : DataFrame) (label : string) : may_raise (list float) :=
  if (1 <? count_occ String.string_dec (columns df) label)%nat then
    Raise (AttributeError "'DataFrame' object has no attribute 'unique'")
  else column df label.

(** The threshold [1e-10] of the bias quantifier, as the binary64 value the
    decimal literal denotes. *)
Definition tiny : float := 0x1.b7cdfd9d7bdbbp-34.

(** The rows on which two series both hold a value: the mask
    [~var_x.isna() & ~var_y.isna()] applied to both. *)
Definition complete_pairs (var_x var_y : list float) : list (float * float) :=
  List.filter (fun xy => negb (is_nan (fst xy)) && negb (is_nan (snd xy)))
    (combine var_x var_y).

(** [[c for c in covariates if c != col]] *)
Definition without (col : string) (covariates : list string) : list string :=
  List.filter (fun c => negb (String.eqb c col)) covariates.

(** Membership of a value in [{0, 1, 0.0, 1.0, True, False}]. *)
Definition is_zero_one (v : float) : bool := (v =? 0) || (v =? 1).

(** [series.mean()]: missing values are skipped, an empty series has mean NaN. *)
Definition mean (xs : list float) : float :=
  let present := List.filter (fun v => negb (is_nan v)) xs in
  fold_left PrimFloat.add present 0 / fold_left (fun n _ => n + 1) present 0.

(** data/loader.py *)
Record Study : Type := mkStudy {
  data : DataFrame;
  treatment : string;
  outcome : string;
  measured_covariates : list string;
  research_question : string;
  background_context : option string
}.

(** ** Results of the numerical libraries *)

Inductive model_class : Type := Logit | OLS.

(** The model selection of [check_conditional_association]: Logit when the
    caller says the target is binary or when its values all lie in
    [{0, 1}], OLS otherwise.  On the Logit path the code then converts the
    target with [Y.astype(float)]; the cells of a frame are floats already,
    which the conversion returns as they are. *)
Definition choose_model (df : DataFrame) (target : string) (is_binary_target : bool)
    : may_raise model_class :=
  if is_binary_target then Ret Logit
  else
    do values <- column_unique df target;
    Ret (if forallb is_zero_one values then Logit else OLS).

(** What the code reads from a fitted statsmodels model. *)
Record RegressionResults : Type := mkResults {
  params : string -> option float;
  pvalues : string -> option float;
  bse : string -> option float;
  rsquared : option float;
  prsquared : option float
}.

(** [series[label]] on a labelled result vector *)
Definition at_label (series : string -> option float) (label : string) : may_raise float :=
  match series label with
  | Some v => Ret v
  | None => Raise (KeyError label)
  end.

Inductive details : Type :=
  | ErrorDetails (error : string)
  | FitDetails (coefficient std_err : float) (model_type : string) (r_squared : float).

Definition model_name (m : model_class) : string :=
  match m with Logit => "Logit" | OLS => "OLS" end.

(** [getattr(result, "rsquared", getattr(result, "prsquared", 0.0))] *)
Definition r_squared_of (result : RegressionResults) : float :=
  match rsquared result with
  | Some r => r
  | None => match prsquared result with Some r => r | None => 0 end
  end.

(** ** Ranker (correction/explainer.py) *)

Record RankedConfounder : Type := mkRanked {
  confounder : ValidatedConfounder;
  ranked_severity : string;
  priority : nat
}.

(** [x or 0.0] for an optional float: [None] and zero are falsy. *)
Definition or_zero (x : option float) : float :=
  match x with
  | Some b => if b =? 0 then 0 else b
  | None => 0
  end.

(** The body of the loop of [rank_confounders]: the entry appended for
    [v], or nothing when the loop continues. *)
Definition rank_entry (v : ValidatedConfounder) : option RankedConfounder :=
  if is_measured v && is_statistically_significant v then
    let bias_pct := abs (or_zero (bias_percentage v)) in
    if 25 <? bias_pct then Some (mkRanked v "Critical" 1)
    else if 10 <? bias_pct then Some (mkRanked v "Moderate" 2)
    else Some (mkRanked v "Minor" 4)
  else if negb (is_measured v) then
    if String.eqb (lower (severity (candidate v))) "high" then
      Some (mkRanked v "Critical" 1)
    else if String.eqb (lower (severity (candidate v))) "medium" then
      Some (mkRanked v "Moderate" 3)
    else Some (mkRanked v "Minor" 5)
  else None.

(** [list.sort(key=lambda x: x.priority)] is a stable sort; a list has one
    stable sorted arrangement, computed here by insertion. *)
Fixpoint insert_by_priority (x : RankedConfounder) (l : list RankedConfounder)
    : list RankedConfounder :=
  match l with
  | [] => [x]
  | y :: l' =>
      if (priority x <=? priority y)%nat then x :: y :: l'
      else y :: insert_by_priority x l'
  end.

Definition sort_by_priority (l : list RankedConfounder) : list RankedConfounder :=
  fold_right insert_by_priority [] l.

Definition rank_confounders (validated : list ValidatedConfounder)
    : list RankedConfounder :=
  sort_by_priority (omap rank_entry validated).

(** ** Correction suggester (correction/suggester.py) *)

Record CorrectionStrategy : Type := mkStrategy {
  action_type : string;
  strategy_description : string;
  code_example : option string
}.

(** An optional string inside an f-string. *)
Definition fmt (s : option string) : string :=
  match s with Some x => x | None => "None" end.

(** [conf.bias_percentage and abs(conf.bias_percentage) > 25]: [None] and
    zero are falsy. *)
Definition substantial (x : option float) : bool :=
  match x with
  | Some b => negb (b =? 0) && (25 <? abs b)
  | None => false
  end.

Definition strategies_for (conf : ValidatedConfounder) : list CorrectionStrategy :=
  let name := name (candidate conf) in
  let col := fmt (matched_column conf) in
  if is_measured conf && is_statistically_significant conf then
    [mkStrategy "control"
       ("Include '" +:+ col +:+
        "' as a covariate in your regression model or propensity score matching.")
       (Some ("sm.OLS(Y, sm.add_constant(df[['Treatment', '" +:+ col +:+ "']]))"))]
    ++ (if substantial (bias_percentage conf)
        then [mkStrategy "stratify"
                ("Bias from '" +:+ col +:+
                 "' is substantial (>25%). Consider analyzing treatment effects entirely separately for different levels/strata of '"
                 +:+ col +:+ "'.")
                None]
        else [])
  else if negb (is_measured conf) then
    [mkStrategy "sensitivity"
       ("'" +:+ name +:+
        "' is unmeasured. Run a sensitivity analysis (e.g., Rosenbaum bounds) in your final paper to prove your result is robust to it.")
       None;
     mkStrategy "study_design"
       ("Can you find a proxy variable for '" +:+ name +:+
        "' in your existing data? If not, future studies MUST measure it.")
       None]
  else [].

(** The loop of [suggest_corrections], from the dictionary built so far. *)
Definition suggest_step (recommendations : gmap string (list CorrectionStrategy))
    (conf : ValidatedConfounder) : gmap string (list CorrectionStrategy) :=
  match strategies_for conf with
  | [] => recommendations
  | strats => <[name (candidate conf) := strats]> recommendations
  end.

Definition suggest_corrections (confounders : list ValidatedConfounder)
    : gmap string (list CorrectionStrategy) :=
  fold_left suggest_step confounders ∅.

(** ** The statistical pipeline

    The section variables are the calls into scipy, statsmodels and the
    float formatter; a call that raises is a [Raise]. *)

Record BiasEstimationResult : Type := mkBias {
  naive_estimate : float;
  adjusted_estimate : float;
  result_bias_magnitude : float;
  result_bias_percentage : float;
  is_problematic : bool
}.

Record SensitivityResult : Type := mkSensitivity {
  required_strength : float;
  could_invalidate_result : bool;
  explanation : string
}.

Record criterion : Type := mkCriterion {
  p_value : float;
  is_significant : bool;
  criterion_details : details
}.

Record criteria : Type := mkCriteria {
  is_statistical_confounder : bool;
  causes_treatment : criterion;
  causes_outcome : criterion
}.

(** Truth value of an optional string: [None] and the empty string are falsy. *)
Definition truthy (s : option string) : bool :=
  match s with
  | Some (String _ _) => true
  | _ => false
  end.

(** [severity_map] of [bound_unmeasured_confounder] *)
Definition severity_map : gmap string float :=
  <["high" := 1.5]> (<["medium" := 2.5]> (<["low" := 4.0]> ∅)).

Section Pipeline.

(** [scipy.stats.pearsonr x y], the pair [(r, p_value)] *)
Variable pearsonr : list float -> list float -> may_raise (float * float).

(** [model_class(Y, X).fit(disp=0)] where [Y] is the column [endog] of the
    frame and [X] its columns [exog] with a constant added *)
Variable sm_fit :
  model_class -> DataFrame -> string -> list string -> may_raise RegressionResults.

(** The text of a float inside an f-string *)
Variable format_float : float -> string.

(** [str.lower] *)
Variable str_lower : string -> string.

(** *** detection/statistical.py *)

Definition check_association (var_x var_y : list float) (alpha : float)
    : may_raise (float * bool) :=
  let kept := complete_pairs var_x var_y in
  let x_clean := map fst kept in
  let y_clean := map snd kept in
  if (length x_clean <? 5)%nat then Ret (1, false)
  else
    try_except
      (do rp <- pearsonr x_clean y_clean;
       Ret (snd rp, snd rp <? alpha))
      (fun e => Ret (1, false)).

Definition check_conditional_association
    (target predictor : string) (controls : list string) (data : DataFrame)
    (alpha : float) (is_binary_target : bool)
    : may_raise (float * bool * details) :=
  let cols := target :: predictor :: controls in
  do selected <- select data cols;
  let df := dropna selected in
  if (len df <? length cols + 5)%nat then
    Ret (1, false, ErrorDetails "Insufficient data after dropping NaNs")
  else
    do model <- choose_model df target is_binary_target;
    try_except
      (do result <- sm_fit model df target (predictor :: controls);
       do p_val <- at_label (pvalues result) predictor;
       do coef <- at_label (params result) predictor;
       do se <- at_label (bse result) predictor;
       Ret (p_val, p_val <? alpha,
            FitDetails coef se (model_name model) (r_squared_of result)))
      (fun e => Ret (1, false, ErrorDetails (str_exn e))).

Definition check_confounding_criteria
    (z_col t_col y_col : string) (covariates : list string) (data : DataFrame)
    (alpha : float) : may_raise criteria :=
  do test_t <- check_conditional_association t_col z_col covariates data alpha false;
  do test_y <-
    check_conditional_association y_col z_col (t_col :: covariates) data alpha false;
  let '(p_t, sig_t, det_t) := test_t in
  let '(p_y, sig_y, det_y) := test_y in
  Ret (mkCriteria (sig_t && sig_y)
         (mkCriterion p_t sig_t det_t)
         (mkCriterion p_y sig_y det_y)).

(** *** detection/validator.py *)

(** The record appended for one candidate, or nothing when the candidate
    restates the treatment or the outcome. *)
Definition validate_candidate (cand : ConfounderCandidate) (study : Study)
    (alpha : float) : may_raise (option ValidatedConfounder) :=
  let available_cols := columns (data study) in
  let matched_col := match_candidate_to_column str_lower cand available_cols in
  if match matched_col with
     | Some col => String.eqb col (treatment study) || String.eqb col (outcome study)
     | None => false
     end
  then Ret None
  else
    match matched_col with
    | Some (String _ _ as col) =>
        let controls := without col (measured_covariates study) in
        do stats <-
          check_confounding_criteria col (treatment study) (outcome study)
            controls (data study) alpha;
        Ret (Some (mkValidated cand true (Some col)
                     (Some (p_value (causes_treatment stats)))
                     (Some (p_value (causes_outcome stats)))
                     (is_statistical_confounder stats)
                     None None))
    | _ => Ret (Some (mkValidated cand false None None None false None None))
    end.

Fixpoint validate_candidates (candidates : list ConfounderCandidate) (study : Study)
    (alpha : float) : may_raise (list ValidatedConfounder) :=
  match candidates with
  | [] => Ret []
  | cand :: rest =>
      do entry <- validate_candidate cand study alpha;
      do validated <- validate_candidates rest study alpha;
      Ret (match entry with Some v => v :: validated | None => validated end)
  end.

(** *** estimation/bias.py *)

Definition _estimate_effect (data : DataFrame) (treatment outcome : string)
    (controls : list string) : may_raise float :=
  do df <- dropna_subset data (treatment :: outcome :: controls);
  if (len df <? length controls + 5)%nat then
    Raise (ValueError "Insufficient data for regression after dropping NaNs.")
  else
    do result <- sm_fit OLS df outcome (treatment :: controls);
    at_label (params result) treatment.

(** [data[data[t_col] == v][y_col].mean()] *)
Definition group_mean (data : DataFrame) (t_col y_col : string) (v : float)
    : may_raise float :=
  do t_values <- column data t_col;
  do y_values <- column data y_col;
  Ret (mean (map snd (List.filter (fun ty => fst ty =? v) (combine t_values y_values)))).

(** Step 1 of [estimate_bias]: the naive effect, with its fallback. *)
Definition naive_effect (study : Study) : may_raise float :=
  let t_col := treatment study in
  let y_col := outcome study in
  try_except
    (_estimate_effect (data study) t_col y_col [])
    (fun e =>
       do t_values <- column (data study) t_col;
       if forallb is_zero_one t_values then
         do t_0 <- group_mean (data study) t_col y_col 0;
         do t_1 <- group_mean (data study) t_col y_col 1;
         Ret (t_1 - t_0)
       else Raise (ValueError "Naive estimation failed on continuous treatment")).

(** [estimate_bias] returns its result (or raises) and leaves the confounder
    record in the state given by the second component. *)
Definition estimate_bias (confounder : ValidatedConfounder) (study : Study)
    (bias_threshold : float) : may_raise BiasEstimationResult * ValidatedConfounder :=
  if negb (is_measured confounder) || negb (truthy (matched_column confounder)) then
    (Raise (ValueError "Cannot quantify precise bias for unmeasured confounders."),
     confounder)
  else
    let z_col := fmt (matched_column confounder) in
    let t_col := treatment study in
    let y_col := outcome study in
    match naive_effect study with
    | Raise e => (Raise e, confounder)
    | Ret estimate_naive =>
        match _estimate_effect (data study) t_col y_col [z_col] with
        | Raise e =>
            (Ret (mkBias estimate_naive estimate_naive 0 0 false), confounder)
        | Ret estimate_adj =>
            let bias_mag := estimate_naive - estimate_adj in
            let denom :=
              if tiny <? abs estimate_adj then abs estimate_adj
              else abs estimate_naive in
            let bias_pct := if tiny <? denom then bias_mag / denom * 100 else 0 in
            let is_prob := bias_threshold * 100 <? abs bias_pct in
            (Ret (mkBias estimate_naive estimate_adj bias_mag bias_pct is_prob),
             mkValidated (candidate confounder) (is_measured confounder)
               (matched_column confounder) (causes_treatment_pval confounder)
               (causes_outcome_pval confounder)
               (is_statistically_significant confounder)
               (Some bias_mag) (Some bias_pct))
        end
    end.

(** *** estimation/sensitivity.py *)

Definition bound_unmeasured_confounder (confounder : ValidatedConfounder)
    (study : Study) (naive_estimate : float) : may_raise SensitivityResult :=
  if is_measured confounder then
    Raise (ValueError "Sensitivity analysis is for unmeasured confounders.")
  else
    let req_strength :=
      default 2.5 (severity_map !! lower (severity (candidate confounder))) in
    if req_strength <? 2.0 then
      Ret (mkSensitivity req_strength true
             ("If '" +:+ name (candidate confounder) +:+
              "' has even a moderate effect (RR > " +:+ format_float req_strength +:+
              "), it could completely invalidate the observed treatment effect."))
    else
      Ret (mkSensitivity req_strength false
             ("To invalidate the result, '" +:+ name (candidate confounder) +:+
              "' would need to be very strongly associated (RR > " +:+
              format_float req_strength +:+ ") with treatment and outcome.")).

End Pipeline.

(** ** Specification vocabulary *)

(** [col] is the first element of [cols], in order, that satisfies [P]. *)
Definition first_such (P : string -> Prop) (cols : list string) (col : string) : Prop :=
  exists before after,
    cols = before ++ col :: after /\ P col /\ Forall (fun c => ~ P c) before.

Definition exact_match (str_lower : string -> string)
    (cand : ConfounderCandidate) (col : string) : Prop :=
  str_lower col = str_lower (name cand).

Definition fuzzy_match (str_lower : string -> string)
    (cand : ConfounderCandidate) (col : string) : Prop :=
  is_substring (str_lower (name cand)) (str_lower col)
  \/ is_substring (str_lower col) (str_lower (name cand)).

(** The bias percentage the ranking table reads: a record whose bias was
    never filled in counts as zero. *)
Definition bias_percent (v : ValidatedConfounder) : float :=
  match bias_percentage v with Some b => b | None => 0 end.

(** The ranking table of the specification: [ranking_table v p s] when a row
    of the table applies to [v] and gives priority [p] and severity [s]. *)
Inductive ranking_table (v : ValidatedConfounder) : nat -> string -> Prop :=
  | row_measured_critical :
      is_measured v = true -> is_statistically_significant v = true ->
      (25 <? abs (bias_percent v)) = true ->
      ranking_table v 1 "Critical"
  | row_measured_moderate :
      is_measured v = true -> is_statistically_significant v = true ->
      (10 <? abs (bias_percent v)) = true -> (abs (bias_percent v) <=? 25) = true ->
      ranking_table v 2 "Moderate"
  | row_measured_minor :
      is_measured v = true -> is_statistically_significant v = true ->
      (abs (bias_percent v) <=? 10) = true ->
      ranking_table v 4 "Minor"
  | row_unmeasured_high :
      is_measured v = false -> lower (severity (candidate v)) = "high" ->
      ranking_table v 1 "Critical"
  | row_unmeasured_medium :
      is_measured v = false -> lower (severity (candidate v)) = "medium" ->
      ranking_table v 3 "Moderate"
  | row_unmeasured_low :
      is_measured v = false -> lower (severity (candidate v)) = "low" ->
      ranking_table v 5 "Minor".

(** Measured but not significant: excluded from the ranking. *)
Definition rejected (v : ValidatedConfounder) : bool :=
  is_measured v && negb (is_statistically_significant v).

Definition has_priority (p : nat) (r : RankedConfounder) : bool :=
  (priority r =? p)%nat.

Definition by_priority (a b : RankedConfounder) : Prop :=
  (priority a <= priority b)%nat.

(** The action tags of the strategies recorded under a confounder's name. *)
Definition actions_of (recs : gmap string (list CorrectionStrategy))
    (conf : ValidatedConfounder) : option (list string) :=
  map action_type <$> recs !! name (candidate conf).

Definition names_of (confounders : list ValidatedConfounder) : list string :=
  map (fun conf => name (candidate conf)) confounders.

(** The invariant of a loaded study: treatment, outcome and covariates are
    distinct labels of the frame, and the covariates hold neither the
    treatment nor the outcome. *)
Definition well_formed (study : Study) : Prop :=
  NoDup (columns (data study))
  /\ In (treatment study) (columns (data study))
  /\ In (outcome study) (columns (data study))
  /\ Forall (fun c => In c (columns (data study))) (measured_covariates study)
  /\ treatment study <> outcome study
  /\ ~ In (treatment study) (measured_covariates study)
  /\ ~ In (outcome study) (measured_covariates study).



(** ** Sample studies and stand-ins for the numerical libraries

    Used to run the pipeline on concrete inputs. *)

Definition sample_pearsonr (x y : list float) : may_raise (float * float) :=
  Ret (0.5, 0.25).

Definition sample_fit (model : model_class) (df : DataFrame) (endog : string)
    (exog : list string) : may_raise RegressionResults :=
  Ret (mkResults
         (fun _ => Some (if (1 <? length exog)%nat then 5 else 7.5))
         (fun label => Some (if String.eqb label "school_size" then 0.75 else 0.015625))
         (fun _ => Some 0.5)
         (Some 0.875) None).

Definition failing_fit (model : model_class) (df : DataFrame) (endog : string)
    (exog : list string) : may_raise RegressionResults :=
  Raise (ValueError "Singular matrix").

Definition sample_format (x : float) : string :=
  if x =? 1.5 then "1.5" else if x =? 2.5 then "2.5" else if x =? 4 then "4.0" else "?".

(** The default significance level [0.05] and bias threshold [0.1] of
    config.py, as the binary64 values the decimal literals denote. *)
Definition default_alpha : float := 0x1.999999999999ap-5.
Definition default_bias_threshold : float := 0x1.999999999999ap-4.

(** Ten pupils: age, school size, tutoring (0/1) and test score. *)
Definition scenario_1_study : Study :=
  mkStudy
    (mkFrame ["student_age"; "school_size"; "received_tutoring"; "test_score"]
       [[10; 300; 0; 50]; [11; 250; 0; 54]; [12; 400; 0; 57]; [13; 350; 1; 66];
        [14; 300; 1; 70]; [15; 200; 1; 73]; [16; 450; 1; 78]; [12; 320; 0; 58];
        [11; 280; 0; 53]; [15; 380; 1; 74]])
    "received_tutoring" "test_score" ["student_age"; "school_size"]
    "Does tutoring raise test scores?" None.

(** Four pupils, two of them tutored: too few rows for the adjusted
    regression. *)
Definition tiny_study : Study :=
  mkStudy
    (mkFrame ["student_age"; "received_tutoring"; "test_score"]
       [[13; 0; 60]; [14; 1; 70]; [15; 1; 73]; [12; 0; 58]])
    "received_tutoring" "test_score" ["student_age"]
    "Does tutoring raise test scores?" None.

(** Three pupils, all tutored: too few rows for any regression. *)
Definition small_study : Study :=
  mkStudy
    (mkFrame ["student_age"; "received_tutoring"; "test_score"]
       [[13; 1; 66]; [14; 1; 70]; [15; 1; 73]])
    "received_tutoring" "test_score" ["student_age"]
    "Does tutoring raise test scores?" None.

(** Two records under one name: a confirmed confounder with a bias of 30%
    and an unmeasured one. *)
Definition confirmed_x : ValidatedConfounder :=
  mkValidated (mkCandidate "x" "" "" "" "high") true (Some "x")
    (Some 0.015625) (Some 0.015625) true (Some 1.5) (Some 30).

Definition unmeasured_x : ValidatedConfounder :=
  mkValidated (mkCandidate "x" "" "" "" "high") false None None None false None None.

Definition sample_candidates : list ConfounderCandidate :=
  [mkCandidate "student_age" "" "" "" "high";
   mkCandidate "school_size" "" "" "" "low";
   mkCandidate "motivation" "" "" "" "medium"].

Definition genetics : ValidatedConfounder :=
  mkValidated (mkCandidate "genetics" "" "" "" "high") false None None None false
    None None.

(** The records of the ranking test: biases of 5% and 30%, an unmeasured
    candidate of high severity, and a measured column that failed the
    significance test. *)
Definition minor_c2 : ValidatedConfounder :=
  mkValidated (mkCandidate "c2" "" "" "" "low") true (Some "c2") None None true
    None (Some 5).

Definition critical_c1 : ValidatedConfounder :=
  mkValidated (mkCandidate "c1" "" "" "" "high") true (Some "c1") None None true
    None (Some 30).

Definition unmeasured_c3 : ValidatedConfounder :=
  mkValidated (mkCandidate "c3" "" "" "" "high") false None None None false
    None None.

Definition rejected_c4 : ValidatedConfounder :=
  mkValidated (mkCandidate "c4" "" "" "" "low") true (Some "c4") None None false
    None None.

Definition ranking_sample : list ValidatedConfounder :=
  [minor_c2; critical_c1; unmeasured_c3; rejected_c4].

Definition age_confounder : ValidatedConfounder :=
  mkValidated (mkCandidate "student_age" "" "" "" "high") true (Some "student_age")
    None None true None None.

(** * The rest of the package

    The functions around the validation pipeline: report assembly, the
    loader and the data-quality check, the decoding of the language model's
    answer, its retry loop and the settings. *)

(** ** Report assembly (correction/explainer.py) *)

Record BiasReport : Type := mkReport {
  report_study : Study;
  report_naive_estimate : option float;
  report_adjusted_estimate : option float;
  ranked_confounders : list RankedConfounder;
  recommendations : gmap string (list CorrectionStrategy)
}.

Definition has_critical_confounders (report : BiasReport) : bool :=
  existsb (fun rc => String.eqb (ranked_severity rc) "Critical")
    (ranked_confounders report).

Definition generate_report (study : Study)
    (validated_confounders : list ValidatedConfounder)
    (naive_estimate final_adjusted_estimate : option float) : BiasReport :=
  let ranked := rank_confounders validated_confounders in
  let recs := suggest_corrections (map confounder ranked) in
  mkReport study naive_estimate final_adjusted_estimate ranked recs.

(** ** Loader (data/loader.py) *)

Definition n_samples (study : Study) : nat := len (data study).

(** [c in self.data.columns] *)
Definition has_column (df : DataFrame) (c : string) : bool :=
  existsb (String.eqb c) (columns df).

(** [Study.select] *)
Definition Study_select (study : Study) (cols : list string) : may_raise DataFrame :=
  let available := List.filter (has_column (data study)) cols in
  select (data study) available.

(** The set [exclude] of [load_study]. *)
Definition exclude (treatment outcome : string) : list string :=
  ["id"; "index"; "timestamp"; "date"; treatment; outcome].

Section Loader.

(** [str.lower] *)
Variable str_lower : string -> string.

(** [[c for c in df.columns if c.lower() not in exclude]] *)
Definition covariates_of (df : DataFrame) (treatment outcome : string) : list string :=
  List.filter
    (fun c => negb (existsb (String.eqb (str_lower c)) (exclude treatment outcome)))
    (columns df).

(** [load_study] from the frame that [pd.read_csv] returned and the text of
    the context file, if any: the column checks, the covariates and the
    record. *)
Definition load_study (df : DataFrame) (treatment outcome research_question : string)
    (context_text : option string) : may_raise Study :=
  if negb (has_column df treatment) then
    Raise (ValueError ("Treatment column '" +:+ treatment +:+ "' not found in data"))
  else if negb (has_column df outcome) then
    Raise (ValueError ("Outcome column '" +:+ outcome +:+ "' not found in data"))
  else
    Ret (mkStudy df treatment outcome (covariates_of df treatment outcome)
           research_question context_text).

End Loader.

(** ** Data-quality check (data/validator.py) *)

Record ValidationResult : Type := mkValidation {
  is_valid : bool;
  errors : list string;
  warnings : list string
}.

(** [series.isna().any()] *)
Definition any_missing (values : list float) : bool := existsb is_nan values.

(** The distinct values of a series, missing values left out. *)
Fixpoint distinct (values : list float) : list float :=
  match values with
  | [] => []
  | v :: rest =>
      if is_nan v || existsb (PrimFloat.eqb v) (distinct rest) then distinct rest
      else v :: distinct rest
  end.

(** [series.nunique()] *)
Definition nunique (values : list float) : nat := length (distinct values).

(** The length of a list as a float. *)
Definition count {A : Type} (l : list A) : float :=
  fold_left (fun n _ => n + 1) l 0.

(** [series.isna().mean()]: the share of missing values, NaN on an empty
    series. *)
Definition null_share (values : list float) : float :=
  count (List.filter is_nan values) / count values.

Section DataQuality.

(** The text of a float under the format [.0%] *)
Variable format_percent : float -> string.

(** The warnings of step 5 of [validate_study], covariate by covariate. *)
Fixpoint covariate_warnings (df : DataFrame) (covariates : list string)
    : may_raise (list string) :=
  match covariates with
  | [] => Ret []
  | cov :: rest =>
      do values <- column df cov;
      let null_pct := null_share values in
      let here :=
        if 0.5 <? null_pct then
          ["Covariate '" +:+ cov +:+ "' is missing in " +:+ format_percent null_pct
           +:+ " of rows."]
        else if 0 <? null_pct then
          ["Covariate '" +:+ cov +:+
           "' has missing values. Statistical detection metrics may drop these rows."]
        else [] in
      do later <- covariate_warnings df rest;
      Ret (here ++ later)
  end.

Definition validate_study (study : Study) (min_samples : Z) : may_raise ValidationResult :=
  let df := data study in
  let t := treatment study in
  let y := outcome study in
  let n := Z.of_nat (len df) in
  let size_errors :=
    if (n <? min_samples)%Z then
      ["Insufficient samples: " +:+ pretty n +:+ " < " +:+ pretty min_samples
       +:+ " required for reliable causal inference."]
    else [] in
  let size_warnings :=
    if (n <? min_samples)%Z then []
    else if (n <? min_samples * 2)%Z then
      ["Small sample size (" +:+ pretty n +:+
       "). Causal estimates may have wide confidence intervals."]
    else [] in
  do t_values <- column df t;
  let t_missing :=
    if any_missing t_values then
      ["Treatment column '" +:+ t +:+ "' contains missing values."]
    else [] in
  do y_values <- column df y;
  let y_missing :=
    if any_missing y_values then
      ["Outcome column '" +:+ y +:+ "' contains missing values."]
    else [] in
  let unique_t := nunique t_values in
  let t_variation :=
    if negb (any_missing t_values) && (unique_t <? 2)%nat then
      ["Treatment column '" +:+ t +:+ "' has no variation (only " +:+ pretty unique_t
       +:+ " unique value)."]
    else [] in
  let t_coding :=
    if negb (any_missing t_values) && (unique_t =? 2)%nat
       && negb (forallb is_zero_one t_values) then
      ["Treatment '" +:+ t +:+
       "' is binary but not 0/1. Consider recoding for cleaner interpretation."]
    else [] in
  let y_variation :=
    if negb (any_missing y_values) && (nunique y_values <? 2)%nat then
      ["Outcome column '" +:+ y +:+ "' has no variation."]
    else [] in
  do cov_warnings <- covariate_warnings df (measured_covariates study);
  let errors := size_errors ++ t_missing ++ y_missing ++ t_variation ++ y_variation in
  let warnings := size_warnings ++ t_coding ++ cov_warnings in
  Ret (mkValidation (length errors =? 0)%nat errors warnings).

End DataQuality.

(** ** Settings (config.py) *)

Inductive LLMProvider : Type := OLLAMA | OPENAI | ANTHROPIC | GROQ | MISTRAL | TOGETHER.

(** [provider.value] *)
Definition provider_value (p : LLMProvider) : string :=
  match p with
  | OLLAMA => "ollama"
  | OPENAI => "openai"
  | ANTHROPIC => "anthropic"
  | GROQ => "groq"
  | MISTRAL => "mistral"
  | TOGETHER => "together"
  end.

Definition provider_eqb (p q : LLMProvider) : bool :=
  String.eqb (provider_value p) (provider_value q).

Definition _DEFAULT_MODELS : list (LLMProvider * string) :=
  [(OLLAMA, "llama3.1");
   (OPENAI, "gpt-4o");
   (ANTHROPIC, "claude-3-5-sonnet-20241022");
   (GROQ, "llama-3.1-70b-versatile");
   (MISTRAL, "mistral-large-latest");
   (TOGETHER, "meta-llama/Llama-3-70b-chat-hf")].

(** [table.get(key, fallback)] on a table written as a list of pairs *)
Definition get_or {A : Type} (table : list (LLMProvider * A)) (key : LLMProvider)
    (fallback : A) : A :=
  match List.find (fun entry => provider_eqb (fst entry) key) table with
  | Some entry => snd entry
  | None => fallback
  end.

Record ConfounderSettings : Type := mkSettings {
  llm_provider : LLMProvider;
  llm_model : string;
  llm_temperature : float;
  llm_max_retries : nat;
  alpha : float;
  bias_threshold : float;
  log_level : string
}.

Definition resolved_model (settings : ConfounderSettings) : string :=
  let base :=
    match llm_model settings with
    | EmptyString => get_or _DEFAULT_MODELS (llm_provider settings) "llama3.1"
    | model => model
    end in
  if provider_eqb (llm_provider settings) OLLAMA && negb (contains base "/") then
    "ollama/" +:+ base
  else base.

(** The settings with another [llm_model]. *)
Definition with_model (settings : ConfounderSettings) (model : string)
    : ConfounderSettings :=
  mkSettings (llm_provider settings) model (llm_temperature settings)
    (llm_max_retries settings) (alpha settings) (bias_threshold settings)
    (log_level settings).

(** ** Retry loop of the language-model adapter (llm/adapter.py) *)

Record message : Type := mkMessage {
  role : string;
  content : string
}.

(** What [LLMAdapter.complete] gives back: the text of the answer, or the
    [ConfounderProviderError] it raises. *)
Inductive completion : Type :=
  | Completed (text : string)
  | ConfounderProviderError (msg : string).

(** The messages of [LLMAdapter.complete]: the system message, when there
    is a system text, then the prompt. *)
Definition messages_for (prompt : string) (system : option string) : list message :=
  (match system with
   | Some (String _ _ as text) => [mkMessage "system" text]
   | _ => []
   end) ++ [mkMessage "user" prompt].

Section Adapter.

(** The [n]-th call of [litellm.completion] on the messages: the content
    of the first choice of its answer ([None] when it has none), or the
    exception raised by the call or by reading the answer. *)
Variable litellm_completion : list message -> nat -> may_raise (option string).

(** The attempts [attempt], [attempt + 1], ... of the loop of
    [LLMAdapter.complete],
    [remaining] of them: the answer, if any attempt gave one, and the
    seconds slept after each failure. *)
Fixpoint attempts (messages : list message) (max_retries attempt remaining : nat)
    : option string * list nat :=
  match remaining with
  | O => (None, [])
  | S remaining' =>
      match litellm_completion messages attempt with
      | Ret answer => (Some (default "" answer), [])
      | Raise _ =>
          let wait := 2 ^ (attempt - 1) in
          let later := attempts messages max_retries (S attempt) remaining' in
          (fst later,
           (if (attempt <? max_retries)%nat then [wait] else []) ++ snd later)
      end
  end.

(** [LLMAdapter.complete]: its result and the seconds it slept, in order. *)
Definition LLMAdapter_complete (settings : ConfounderSettings) (prompt : string)
    (system : option string) : completion * list nat :=
  let messages := messages_for prompt system in
  let max_retries := llm_max_retries settings in
  let run := attempts messages max_retries 1 max_retries in
  match fst run with
  | Some text => (Completed text, snd run)
  | None =>
      (ConfounderProviderError
         ("All " +:+ pretty max_retries +:+ " LLM call attempts failed. Provider="
          +:+ provider_value (llm_provider settings) +:+ ", model="
          +:+ resolved_model settings +:+ "."),
       snd run)
  end.

End Adapter.

(** ** Decoding the model's answer (llm/parser.py) *)

(** [is_plausible] *)
Definition is_plausible (cand : ConfounderCandidate) : bool :=
  negb (String.eqb (name cand) "")
  && negb (String.eqb (causes_treatment_because cand) "")
  && negb (String.eqb (causes_outcome_because cand) "").

(** A decoded JSON value; the members of an object carry distinct keys. *)
#[warnings="-register-all"] Inductive json : Type :=
  | JNull
  | JBool (b : bool)
  | JInt (z : Z)
  | JFloat (x : float)
  | JString (s : string)
  | JArray (items : list json)
  | JObject (members : list (string * json)).

(** [type(value).__name__] *)
Definition type_name (value : json) : string :=
  match value with
  | JNull => "NoneType"
  | JBool _ => "bool"
  | JInt _ => "int"
  | JFloat _ => "float"
  | JString _ => "str"
  | JArray _ => "list"
  | JObject _ => "dict"
  end.

Fixpoint lookup_member (members : list (string * json)) (key : string) : option json :=
  match members with
  | [] => None
  | (k, v) :: rest => if String.eqb k key then Some v else lookup_member rest key
  end.

(** [value.get(key, fallback)]: only a dict has [get]. *)
Definition json_get (value : json) (key : string) (fallback : json) : may_raise json :=
  match value with
  | JObject members => Ret (default fallback (lookup_member members key))
  | other =>
      Raise (AttributeError
               ("'" +:+ type_name other +:+ "' object has no attribute 'get'"))
  end.

(** White space of [str.strip] on ASCII text. *)
Definition is_space (c : ascii) : bool :=
  let n := nat_of_ascii c in
  ((9 <=? n) && (n <=? 13) || (28 <=? n) && (n <=? 32))%nat.

Fixpoint lstrip (s : string) : string :=
  match s with
  | EmptyString => EmptyString
  | String c rest => if is_space c then lstrip rest else s
  end.

Fixpoint rstrip (s : string) : string :=
  match s with
  | EmptyString => EmptyString
  | String c rest =>
      match rstrip rest with
      | EmptyString => if is_space c then EmptyString else String c EmptyString
      | kept => String c kept
      end
  end.

(** [s.strip()] *)
Definition strip (s : string) : string := rstrip (lstrip s).

(** [s.replace(" ", "_")] *)
Fixpoint underscores (s : string) : string :=
  match s with
  | EmptyString => EmptyString
  | String c rest =>
      String (if Ascii.eqb c " " then "_"%char else c) (underscores rest)
  end.

(** [s.strip("`")] *)
Fixpoint lstrip_ticks (s : string) : string :=
  match s with
  | EmptyString => EmptyString
  | String c rest => if Ascii.eqb c "`" then lstrip_ticks rest else s
  end.

Fixpoint rstrip_ticks (s : string) : string :=
  match s with
  | EmptyString => EmptyString
  | String c rest =>
      match rstrip_ticks rest with
      | EmptyString => if Ascii.eqb c "`" then EmptyString else String c EmptyString
      | kept => String c kept
      end
  end.

Definition strip_ticks (s : string) : string := rstrip_ticks (lstrip_ticks s).

Section Parser.

(** [json.loads]: the decoded value, or nothing on a [JSONDecodeError] *)
Variable json_loads : string -> option json.

(** Group 1 of the first match of the markdown-fence pattern of
    [parse_candidates] in the text, if it matches *)
Variable fence_body : string -> option string.

(** [str(value)] for a float, a list or a dict *)
Variable repr : json -> string.

(** [str(value)] *)
Definition str_json (value : json) : string :=
  match value with
  | JString s => s
  | JNull => "None"
  | JBool true => "True"
  | JBool false => "False"
  | JInt z => pretty z
  | other => repr other
  end.

(** The body of the [try] of step 4: the candidate built from one item. *)
Definition candidate_of (item : json) : may_raise ConfounderCandidate :=
  do name <- json_get item "name" (JString "");
  do description <- json_get item "description" (JString "");
  do causes_treatment <- json_get item "causes_treatment_because" (JString "");
  do causes_outcome <- json_get item "causes_outcome_because" (JString "");
  do severity <- json_get item "severity" (JString "medium");
  Ret (mkCandidate
         (underscores (lower (strip (str_json name))))
         (strip (str_json description))
         (strip (str_json causes_treatment))
         (strip (str_json causes_outcome))
         (lower (strip (str_json severity)))).

(** Step 4: items that are not objects, or give an implausible candidate,
    are skipped. *)
Fixpoint collect_candidates (items : list json) : list ConfounderCandidate :=
  match items with
  | [] => []
  | item :: rest =>
      match candidate_of item with
      | Ret candidate =>
          if is_plausible candidate then candidate :: collect_candidates rest
          else collect_candidates rest
      | Raise _ => collect_candidates rest
      end
  end.

(** Steps 3 and 4, from the decoded value. *)
Definition candidates_of_json (data : json) : may_raise (list ConfounderCandidate) :=
  do candidates_data <- json_get data "candidates" (JArray []);
  match candidates_data with
  | JArray items => Ret (collect_candidates items)
  | _ =>
      match data with
      | JArray items => Ret (collect_candidates items)
      | _ => Raise (ValueError "JSON does not contain a 'candidates' array.")
      end
  end.

(** Step 1: the text handed to [json.loads]. *)
Definition clean_response (llm_response : string) : string :=
  let cleaned := strip llm_response in
  if starts_with cleaned "```" then
    match fence_body cleaned with
    | Some body => body
    | None => strip (strip_ticks cleaned)
    end
  else cleaned.

Definition parse_candidates (llm_response : string)
    : may_raise (list ConfounderCandidate) :=
  match json_loads (clean_response llm_response) with
  | None => Raise (ValueError "LLM returned malformed JSON.")
  | Some data => candidates_of_json data
  end.

End Parser.

(** ** The audit (cli.py, api/routes.py) *)

(** Measured and statistically significant. *)
Definition confirmed (v : ValidatedConfounder) : bool :=
  is_measured v && is_statistically_significant v.

Section Audit.

Variable sm_fit :
  model_class -> DataFrame -> string -> list string -> may_raise RegressionResults.
Variable str_lower : string -> string.

(** Step 5 of [check] and of [check_study]: the loop that calls
    [estimate_bias] on every confirmed confounder.  It gives the records as
    the loop leaves them and the value of [naive_est]. *)
Fixpoint quantify_bias (validated : list ValidatedConfounder) (study : Study)
    (naive_est : option float)
    : may_raise (list ValidatedConfounder * option float) :=
  match validated with
  | [] => Ret ([], naive_est)
  | v :: rest =>
      if is_measured v && is_statistically_significant v then
        match estimate_bias sm_fit v study default_bias_threshold with
        | (Raise e, _) => Raise e
        | (Ret res, updated) =>
            let naive_est' :=
              match naive_est with
              | None => Some (naive_estimate res)
              | Some _ => naive_est
              end in
            do later <- quantify_bias rest study naive_est';
            Ret (updated :: fst later, snd later)
        end
      else
        do later <- quantify_bias rest study naive_est;
        Ret (v :: fst later, snd later)
  end.

(** Steps 4 to 6 of [check] and of [check_study]: validation, bias
    quantification and report. *)
Definition audit (candidates : list ConfounderCandidate) (study : Study)
    : may_raise BiasReport :=
  do validated <- validate_candidates sm_fit str_lower candidates study default_alpha;
  do quantified <- quantify_bias validated study None;
  Ret (generate_report study (fst quantified) (snd quantified) None).

End Audit.

(** ** More specification vocabulary *)

(** The candidate is matched to the treatment or the outcome column. *)
Definition restates (str_lower : string -> string)
    (study : Study) (cand : ConfounderCandidate) : bool :=
  match match_candidate_to_column str_lower cand (columns (data study)) with
  | Some col => String.eqb col (treatment study) || String.eqb col (outcome study)
  | None => false
  end.

(** The confounder is filed under the name [key] and gets strategies. *)
Definition advised_as (key : string) (conf : ValidatedConfounder) : bool :=
  String.eqb (name (candidate conf)) key && negb (rejected conf).

(** The pairs of priority and severity that the ranker hands out. *)
Definition rank_levels : list (nat * string) :=
  [(1, "Critical"); (2, "Moderate"); (3, "Moderate"); (4, "Minor"); (5, "Minor")]%nat.

(** No upper-case letter and no space. *)
Definition canonical (s : string) : Prop :=
  lower s = s /\ ~ In " "%char (list_ascii_of_string s).

(** The waits of the retry loop before its [k]-th attempt: 1, 2, 4, ... *)
Definition backoff (k : nat) : list nat := map (Nat.pow 2) (seq 0 (k - 1)).

(** The precondition of [estimate_bias] on measured records: a matched
    column that is not empty. *)
Definition quantifiable (v : ValidatedConfounder) : Prop :=
  is_measured v = true -> truthy (matched_column v) = true.

(** The error of the naive estimate on a treatment that is not 0/1. *)
Definition continuous_treatment_error : exn :=
  ValueError "Naive estimation failed on continuous treatment".

(** The [j]-th call of the provider fails. *)
Definition fails_at (litellm_completion : list message -> nat -> may_raise (option string))
    (messages : list message) (j : nat) : Prop :=
  exists e, litellm_completion messages j = Raise e.

(** ** More sample inputs *)

(** The frame of the first scenario with a capitalised treatment label. *)
Definition capital_frame : DataFrame :=
  mkFrame ["student_age"; "school_size"; "Tutoring"; "test_score"]
    (rows (data scenario_1_study)).


Definition sample_percent (x : float) : string := "?%".

Definition sample_settings : ConfounderSettings :=
  mkSettings OLLAMA "" 0.5 3 default_alpha default_bias_threshold "INFO".

(** A provider that times out twice and then answers. *)
Definition flaky_completion (messages : list message) (j : nat)
    : may_raise (option string) :=
  if (j <? 3)%nat then Raise (ValueError "timeout") else Ret (Some "{}").

(** A provider that always times out. *)
Definition down_completion (messages : list message) (j : nat)
    : may_raise (option string) :=
  Raise (ValueError "timeout").

(** A decoded answer with one usable candidate, one item that is not an
    object and one candidate without a name. *)
Definition sample_answer : json :=
  JObject
    [("candidates",
      JArray
        [JObject
           [("name", JString " Student Age ");
            ("description", JString "Age of the pupil");
            ("causes_treatment_because", JString "Older pupils are tutored more often");
            ("causes_outcome_because", JString "Older pupils score higher");
            ("severity", JString "HIGH")];
         JString "noise";
         JObject [("name", JString "")]])].

Definition sample_loads (text : string) : option json := Some sample_answer.

Definition array_loads (text : string) : option json := Some (JArray []).

Definition no_fence (text : string) : option string := None.

Definition sample_repr (value : json) : string := "?".

(** ** Vocabulary of the repeated-treatment property *)



(** ** Sample inputs outside ASCII and with an empty label *)

(** [str.lower] on text made of ASCII characters and of U+0130, the capital
    I with a dot above (bytes C4 B0), which it replaces by "i" followed by
    U+0307, the combining dot above (bytes CC 87). *)
Fixpoint lower_dotted (s : string) : string :=
  match s with
  | EmptyString => EmptyString
  | String c s' =>
      match s' with
      | String d s'' =>
          if (nat_of_ascii c =? 196)%nat && (nat_of_ascii d =? 176)%nat then
            String "i"
              (String (ascii_of_nat 204) (String (ascii_of_nat 135) (lower_dotted s'')))
          else String (lower_ascii c) (lower_dotted s')
      | EmptyString => String (lower_ascii c) EmptyString
      end
  end.

(** A name of two characters, "a" and U+0130, whose lower-cased form has
    three. *)
Definition dotted_candidate : ConfounderCandidate :=
  mkCandidate "aİ" "" "" "" "high".


(** * Properties *)

(** ** Strings *)

Lemma append_cons (a : ascii) (s t : string) :
  String a s +:+ t = String a (s +:+ t).
Proof. reflexivity. Qed.

Lemma append_nil (t : string) : "" +:+ t = t.
Proof. reflexivity. Qed.

Lemma starts_with_spec (s p : string) :
  starts_with s p = true <-> exists post, s = p +:+ post.
Proof.
  revert s; induction p as [|a p IH]; intros s; simpl.
  - split; [intros _; exists s; reflexivity | reflexivity].
  - destruct s as [|b s].
    + split; [discriminate | intros [post H]; discriminate].
    + destruct (Ascii.eqb_spec a b) as [->|Hne].
      * rewrite IH. split; intros [post H]; exists post;
          rewrite append_cons in *; congruence.
      * split; [discriminate|].
        intros [post H]. rewrite append_cons in H. congruence.
Qed.

Lemma contains_spec (hay needle : string) :
  contains hay needle = true <-> is_substring needle hay.
Proof.
  unfold is_substring. split.
  - induction hay as [|a hay IH]; simpl; rewrite orb_true_iff; intros [H|H].
    + apply starts_with_spec in H as [post ->]. exists "", post; reflexivity.
    + discriminate.
    + apply starts_with_spec in H as [post H]. exists "", post.
      now rewrite append_nil.
    + destruct (IH H) as (pre & post & ->). exists (String a pre), post; reflexivity.
  - intros (pre & post & ->). induction pre as [|a pre IH].
    + rewrite append_nil.
      assert (Hs : starts_with (needle +:+ post) needle = true)
        by (apply starts_with_spec; eauto).
      destruct (needle +:+ post); simpl; rewrite Hs; reflexivity.
    + rewrite append_cons. simpl. rewrite IH. apply orb_true_r.
Qed.

(** ** Candidate matcher *)

Lemma find_first_such (f : string -> bool) (P : string -> Prop) (cols : list string) :
  (forall c, f c = true <-> P c) ->
  Exists P cols ->
  exists col, List.find f cols = Some col /\ first_such P cols col.
Proof.
  intros Hf. induction 1 as [c cols Hc | c cols _ IH]; simpl.
  - rewrite (proj2 (Hf c) Hc). exists c; split; [reflexivity|].
    exists [], cols. split; [reflexivity|]. split; [assumption | constructor].
  - destruct (f c) eqn:Efc.
    + exists c; split; [reflexivity|].
      exists [], cols. split; [reflexivity|]. split; [now apply Hf | constructor].
    + destruct IH as (col & -> & before & after & -> & HP & Hbefore).
      exists col; split; [reflexivity|].
      exists (c :: before), after. split; [reflexivity|]. split; [assumption|].
      constructor; [|assumption]. intros HPc. apply Hf in HPc. congruence.
Qed.

Lemma find_none (f : string -> bool) (P : string -> Prop) (cols : list string) :
  (forall c, f c = true -> P c) ->
  ~ Exists P cols -> List.find f cols = None.
Proof.
  intros Hf Hno. induction cols as [|c cols IH]; simpl; [reflexivity|].
  destruct (f c) eqn:Efc.
  - exfalso. apply Hno. constructor. now apply Hf.
  - apply IH. intros H. apply Hno. now constructor 2.
Qed.

Section MatcherFacts.

Variable str_lower : string -> string.

Lemma exact_test_spec (cand : ConfounderCandidate) (cols : list string) :
  existsb (String.eqb (str_lower (name cand))) (map str_lower cols) = true
  <-> Exists (exact_match str_lower cand) cols.
Proof.
  rewrite existsb_exists, List.Exists_exists. unfold exact_match. split.
  - intros (x & Hin & Heq). apply in_map_iff in Hin as (col & <- & Hin).
    apply String.eqb_eq in Heq. exists col. split; [assumption | congruence].
  - intros (col & Hin & Heq). exists (str_lower col). split.
    + apply in_map_iff. eauto.
    + apply String.eqb_eq. congruence.
Qed.

Lemma fuzzy_test_spec (cand : ConfounderCandidate) (col : string) :
  contains (str_lower col) (str_lower (name cand))
  || contains (str_lower (name cand)) (str_lower col)
  = true <-> fuzzy_match str_lower cand col.
Proof. unfold fuzzy_match. rewrite orb_true_iff, !contains_spec. reflexivity. Qed.

(** C7 (as amended). Whatever [str.lower] does,
    [match_candidate_to_column] returns the first column whose lower-cased
    name equals the candidate's lower-cased name whenever there is one; otherwise the first column, in column
    order, whose lower-cased name contains the candidate's lower-cased name
    or is contained in it, provided the candidate's lower-cased name has at
    least three characters; otherwise nothing.  The length tested is that
    of the lower-cased name: a candidate whose lower-cased name has fewer
    than three characters never matches fuzzily. *)
Theorem match_candidate_to_column_spec (cand : ConfounderCandidate) (cols : list string) :
  (Exists (exact_match str_lower cand) cols ->
   exists col, match_candidate_to_column str_lower cand cols = Some col
               /\ first_such (exact_match str_lower cand) cols col)
  /\ (~ Exists (exact_match str_lower cand) cols ->
      (3 <= char_count (str_lower (name cand)))%nat ->
      Exists (fuzzy_match str_lower cand) cols ->
      exists col, match_candidate_to_column str_lower cand cols = Some col
                  /\ first_such (fuzzy_match str_lower cand) cols col)
  /\ (~ Exists (exact_match str_lower cand) cols ->
      (char_count (str_lower (name cand)) < 3)%nat ->
      match_candidate_to_column str_lower cand cols = None)
  /\ (~ Exists (exact_match str_lower cand) cols ->
      ~ Exists (fuzzy_match str_lower cand) cols ->
      match_candidate_to_column str_lower cand cols = None).
Proof.
  unfold match_candidate_to_column.
  destruct (existsb _ (map str_lower cols)) eqn:Eexact.
  - apply exact_test_spec in Eexact.
    split; [|repeat split; intros Hno; contradiction].
    intros _. apply find_first_such; [|assumption].
    intros c. unfold exact_match. apply String.eqb_eq.
  - assert (Hno : ~ Exists (exact_match str_lower cand) cols).
    { intros H. apply exact_test_spec in H. congruence. }
    split; [intros H; contradiction|]. split; [|split].
    + intros _ Hlen Hfuzzy. apply find_first_such; [|assumption].
      intros c. rewrite andb_true_iff, fuzzy_test_spec, Nat.leb_le. tauto.
    + intros _ Hlen.
      apply (find_none _ (fun _ => False)).
      * intros c. rewrite andb_true_iff, Nat.leb_le. lia.
      * rewrite List.Exists_exists. intros (x & _ & []).
    + intros _ Hnf. apply (find_none _ (fuzzy_match str_lower cand)); [|assumption].
      intros c. rewrite andb_true_iff, fuzzy_test_spec. tauto.
Qed.

End MatcherFacts.

(** ** Facts about binary64 comparisons *)

Lemma SFcompare_antisym (f1 f2 : spec_float) :
  SFcompare f2 f1 = option_map CompOpp (SFcompare f1 f2).
Proof.
  destruct f1 as [s1|s1| |s1 m1 e1], f2 as [s2|s2| |s2 m2 e2];
    try destruct s1; try destruct s2; simpl; try reflexivity;
    rewrite (Z.compare_antisym e2 e1); destruct (e2 ?= e1)%Z; simpl; try reflexivity;
    change (Pos.compare_cont Eq m2 m1) with (Pos.compare m2 m1);
    change (Pos.compare_cont Eq m1 m2) with (Pos.compare m1 m2);
    rewrite (Pos.compare_antisym m2 m1); destruct (m2 ?= m1)%positive; reflexivity.
Qed.

Lemma leb_not_ltb (x y : float) : (x <=? y) = true -> (y <? x) = false.
Proof.
  rewrite FloatAxioms.leb_spec, FloatAxioms.ltb_spec. unfold SFleb, SFltb.
  rewrite (SFcompare_antisym (Prim2SF x) (Prim2SF y)).
  destruct (SFcompare (Prim2SF x) (Prim2SF y)) as [[]|]; simpl; congruence.
Qed.

Lemma Prim2SF_0 : Prim2SF 0 = S754_zero false.
Proof. vm_compute. reflexivity. Qed.

Lemma Prim2SF_10 : Prim2SF 10 = S754_finite false 5629499534213120 (-49).
Proof. vm_compute. reflexivity. Qed.

Lemma Prim2SF_25 : Prim2SF 25 = S754_finite false 7036874417766400 (-48).
Proof. vm_compute. reflexivity. Qed.

Lemma leb_10_not_ltb_25 (x : float) : (x <=? 10) = true -> (25 <? x) = false.
Proof.
  rewrite FloatAxioms.leb_spec, FloatAxioms.ltb_spec, Prim2SF_10, Prim2SF_25. unfold SFleb, SFltb.
  destruct (Prim2SF x) as [s|s| |s m e]; try destruct s; cbn [SFcompare];
    try congruence.
  destruct (Z.compare_spec e (-49)); destruct (Z.compare_spec (-48) e);
    try lia; try congruence.
Qed.

Lemma ltb_25_abs_nonzero (b : float) : (25 <? abs b) = true -> (b =? 0) = false.
Proof.
  rewrite FloatAxioms.ltb_spec, FloatAxioms.eqb_spec, FloatAxioms.abs_spec, Prim2SF_25, Prim2SF_0. unfold SFltb, SFeqb.
  destruct (Prim2SF b) as [s|s| |s m e]; try destruct s; cbn [SFcompare SFabs];
    congruence.
Qed.

(** A zero of either sign has absolute value [+0]. *)
Lemma abs_of_zero (b : float) : (b =? 0) = true -> abs b = 0.
Proof.
  rewrite FloatAxioms.eqb_spec, Prim2SF_0. unfold SFeqb. intros H.
  rewrite <- (SF2Prim_Prim2SF (abs b)), FloatAxioms.abs_spec.
  destruct (Prim2SF b) as [s|s| |s m e]; try destruct s; cbn [SFcompare SFabs] in *;
    try discriminate; reflexivity.
Qed.

Lemma abs_or_zero (v : ValidatedConfounder) :
  abs (or_zero (bias_percentage v)) = abs (bias_percent v).
Proof.
  unfold or_zero, bias_percent. destruct (bias_percentage v) as [b|]; [|reflexivity].
  destruct (b =? 0) eqn:E; [|reflexivity].
  symmetry. now apply abs_of_zero.
Qed.

(** ** Ranker *)

Lemma insert_by_priority_perm (x : RankedConfounder) (l : list RankedConfounder) :
  Permutation (insert_by_priority x l) (x :: l).
Proof.
  induction l as [|y l IH]; simpl; [reflexivity|].
  destruct (priority x <=? priority y)%nat; [reflexivity|].
  rewrite IH. apply perm_swap.
Qed.

Lemma sort_by_priority_perm (l : list RankedConfounder) :
  Permutation (sort_by_priority l) l.
Proof.
  induction l as [|x l IH]; simpl; [reflexivity|].
  rewrite insert_by_priority_perm. now constructor.
Qed.

Lemma insert_by_priority_sorted (x : RankedConfounder) (l : list RankedConfounder) :
  Sorted by_priority l -> Sorted by_priority (insert_by_priority x l).
Proof.
  induction 1 as [|y l Hs IH Hhd]; simpl.
  - repeat constructor.
  - destruct (priority x <=? priority y)%nat eqn:E.
    + apply Nat.leb_le in E. repeat constructor; assumption.
    + apply Nat.leb_gt in E. constructor; [assumption|].
      destruct l as [|z l]; simpl.
      * constructor. unfold by_priority. lia.
      * inversion Hhd; subst.
        destruct (priority x <=? priority z)%nat; constructor;
          unfold by_priority in *; lia.
Qed.

Lemma sort_by_priority_sorted (l : list RankedConfounder) :
  Sorted by_priority (sort_by_priority l).
Proof.
  induction l as [|x l IH]; simpl; [constructor|].
  now apply insert_by_priority_sorted.
Qed.

Lemma insert_by_priority_filter (p : nat) (x : RankedConfounder)
    (l : list RankedConfounder) :
  List.filter (has_priority p) (insert_by_priority x l)
  = List.filter (has_priority p) (x :: l).
Proof.
  induction l as [|y l IH]; [reflexivity|].
  cbn [insert_by_priority].
  destruct (priority x <=? priority y)%nat eqn:E; [reflexivity|].
  apply Nat.leb_gt in E.
  cbn [List.filter] in *. rewrite IH. unfold has_priority.
  destruct (Nat.eqb_spec (priority x) p), (Nat.eqb_spec (priority y) p);
    try reflexivity; lia.
Qed.

Lemma sort_by_priority_stable (p : nat) (l : list RankedConfounder) :
  List.filter (has_priority p) (sort_by_priority l) = List.filter (has_priority p) l.
Proof.
  induction l as [|x l IH]; [reflexivity|].
  cbn [sort_by_priority fold_right]. fold (sort_by_priority l).
  rewrite insert_by_priority_filter. cbn [List.filter]. now rewrite IH.
Qed.

Lemma by_priority_trans : Relations_1.Transitive by_priority.
Proof. intros a b c. unfold by_priority. lia. Qed.

Lemma rank_entry_rejected (v : ValidatedConfounder) :
  rejected v = true -> rank_entry v = None.
Proof.
  unfold rejected, rank_entry.
  destruct (is_measured v), (is_statistically_significant v); simpl;
    congruence.
Qed.

Lemma rank_entry_kept (v : ValidatedConfounder) :
  rejected v = false -> exists r, rank_entry v = Some r /\ confounder r = v.
Proof.
  unfold rejected, rank_entry.
  destruct (is_measured v), (is_statistically_significant v); simpl;
    try discriminate; intros _;
    repeat match goal with |- context [if ?c then _ else _] => destruct c end;
    eexists; split; reflexivity.
Qed.

Lemma rank_entry_table (v : ValidatedConfounder) (p : nat) (s : string) :
  ranking_table v p s -> rank_entry v = Some (mkRanked v s p).
Proof.
  unfold rank_entry. rewrite abs_or_zero.
  destruct 1 as [Hm Hs Hb | Hm Hs Hlo Hhi | Hm Hs Hb | Hm Hsev | Hm Hsev | Hm Hsev];
    rewrite Hm; try rewrite Hs; cbn [andb negb].
  - now rewrite Hb.
  - now rewrite (leb_not_ltb _ _ Hhi), Hlo.
  - now rewrite (leb_10_not_ltb_25 _ Hb), (leb_not_ltb _ _ Hb).
  - now rewrite Hsev.
  - now rewrite Hsev.
  - now rewrite Hsev.
Qed.

(** C5. [rank_confounders] drops every measured-but-not-significant
    confounder and keeps one entry for each other confounder; each entry
    carries the priority and severity of the row of the ranking table that
    applies to its confounder; the output is sorted by ascending priority;
    and entries of equal priority stay in input order. *)
Theorem rank_confounders_spec (validated : list ValidatedConfounder) :
  exists entries : list RankedConfounder,
    Forall2
      (fun v r =>
         confounder r = v
         /\ forall p s, ranking_table v p s -> priority r = p /\ ranked_severity r = s)
      (List.filter (fun v => negb (rejected v)) validated) entries
    /\ Permutation (rank_confounders validated) entries
    /\ StronglySorted by_priority (rank_confounders validated)
    /\ forall p,
         List.filter (has_priority p) (rank_confounders validated)
         = List.filter (has_priority p) entries.
Proof.
  exists (omap rank_entry validated). split; [|split; [|split]].
  - induction validated as [|v l IH]; [constructor|].
    cbn [List.filter omap list_omap]. destruct (rejected v) eqn:E; cbn [negb].
    + now rewrite (rank_entry_rejected v E).
    + destruct (rank_entry_kept v E) as (r & Hr & Hc). rewrite Hr.
      constructor; [|exact IH]. split; [assumption|].
      intros p s Ht. apply rank_entry_table in Ht. rewrite Hr in Ht.
      injection Ht as ->. split; reflexivity.
  - apply sort_by_priority_perm.
  - apply Sorted_StronglySorted; [exact by_priority_trans|].
    apply sort_by_priority_sorted.
  - intros p. apply sort_by_priority_stable.
Qed.

(** ** Correction suggester *)

Lemma suggest_step_other (recs : gmap string (list CorrectionStrategy))
    (conf : ValidatedConfounder) (key : string) :
  name (candidate conf) <> key -> suggest_step recs conf !! key = recs !! key.
Proof.
  intros Hne. unfold suggest_step.
  destruct (strategies_for conf); [reflexivity|]. now apply lookup_insert_ne.
Qed.

Lemma suggest_step_same (recs : gmap string (list CorrectionStrategy))
    (conf : ValidatedConfounder) :
  suggest_step recs conf !! name (candidate conf)
  = match strategies_for conf with
    | [] => recs !! name (candidate conf)
    | strats => Some strats
    end.
Proof.
  unfold suggest_step.
  destruct (strategies_for conf); [reflexivity|]. apply lookup_insert_eq.
Qed.

Lemma suggest_fold_other (confounders : list ValidatedConfounder)
    (recs : gmap string (list CorrectionStrategy)) (key : string) :
  ~ In key (names_of confounders) ->
  fold_left suggest_step confounders recs !! key = recs !! key.
Proof.
  revert recs. induction confounders as [|c l IH]; intros recs Hnot; [reflexivity|].
  simpl in *. rewrite IH by tauto. apply suggest_step_other. tauto.
Qed.

Lemma suggest_fold_unique (confounders : list ValidatedConfounder)
    (recs : gmap string (list CorrectionStrategy)) (conf : ValidatedConfounder) :
  NoDup (names_of confounders) ->
  In conf confounders ->
  recs !! name (candidate conf) = None ->
  fold_left suggest_step confounders recs !! name (candidate conf)
  = match strategies_for conf with [] => None | strats => Some strats end.
Proof.
  revert recs. induction confounders as [|c l IH]; intros recs Hnd Hin Hfresh;
    [destruct Hin|].
  cbn [names_of map] in Hnd. inversion Hnd as [|? ? Hc Hnd']; subst.
  fold (names_of l) in Hc, Hnd'. rewrite list_elem_of_In in Hc. simpl.
  destruct Hin as [->|Hin].
  - rewrite suggest_fold_other by assumption.
    rewrite suggest_step_same, Hfresh. now destruct (strategies_for conf).
  - apply IH; [assumption..|].
    rewrite suggest_step_other; [assumption|].
    intros Heq. apply Hc. rewrite Heq. unfold names_of. apply in_map_iff. eauto.
Qed.

Lemma substantial_spec (v : ValidatedConfounder) :
  substantial (bias_percentage v) = (25 <? abs (bias_percent v)).
Proof.
  unfold substantial, bias_percent. destruct (bias_percentage v) as [b|].
  - destruct (25 <? abs b) eqn:E.
    + now rewrite (ltb_25_abs_nonzero b E).
    + apply andb_false_r.
  - vm_compute. reflexivity.
Qed.

(** C9 (as amended). On a list whose confounders carry pairwise distinct
    names, [suggest_corrections] records for each measured and significant
    confounder a strategy list that contains "control" and contains
    "stratify" exactly when the absolute bias percentage exceeds 25; for
    each unmeasured confounder "sensitivity" followed by "study_design"; and
    no entry for a measured confounder that is not significant. *)
Theorem suggest_corrections_spec (confounders : list ValidatedConfounder)
    (conf : ValidatedConfounder) :
  NoDup (names_of confounders) ->
  In conf confounders ->
  (is_measured conf = true -> is_statistically_significant conf = true ->
   exists actions,
     actions_of (suggest_corrections confounders) conf = Some actions
     /\ In "control" actions
     /\ (In "stratify" actions <-> (25 <? abs (bias_percent conf)) = true))
  /\ (is_measured conf = false ->
      actions_of (suggest_corrections confounders) conf
      = Some ["sensitivity"; "study_design"])
  /\ (is_measured conf = true -> is_statistically_significant conf = false ->
      actions_of (suggest_corrections confounders) conf = None).
Proof.
  intros Hnd Hin. unfold actions_of, suggest_corrections.
  rewrite (suggest_fold_unique _ _ _ Hnd Hin (lookup_empty _)).
  unfold strategies_for. rewrite substantial_spec.
  split; [|split].
  - intros -> ->. cbn [andb].
    destruct (25 <? abs (bias_percent conf)); cbn; eexists; (split; [reflexivity|]).
    + split; [now left|]. split; [reflexivity | intros _; right; now left].
    + split; [now left|]. split; [|discriminate].
      intros [H|[]]. discriminate.
  - intros ->. reflexivity.
  - intros -> ->. reflexivity.
Qed.

(** ** The statistical pipeline *)

Section PipelineFacts.

Variable pearsonr : list float -> list float -> may_raise (float * float).
Variable sm_fit :
  model_class -> DataFrame -> string -> list string -> may_raise RegressionResults.
Variable str_lower : string -> string.
Variable format_float : float -> string.

(** *** Association tester *)

Lemma try_except_contained {A : Type} (body : may_raise A) (fallback : exn -> A) :
  exists a, try_except body (fun e => Ret (fallback e)) = Ret a.
Proof. destruct body; simpl; eauto. Qed.

Lemma check_association_returns (var_x var_y : list float) (alpha : float) :
  exists p sig, check_association pearsonr var_x var_y alpha = Ret (p, sig).
Proof.
  unfold check_association.
  destruct (_ <? 5)%nat; [eauto|].
  destruct (try_except_contained
              (do rp <- pearsonr (map fst (complete_pairs var_x var_y))
                          (map snd (complete_pairs var_x var_y));
               Ret (snd rp, snd rp <? alpha))
              (fun _ => (1, false))) as [[p sig] H].
  rewrite H. eauto.
Qed.

Lemma get_loc_present (label : string) (labels : list string) :
  In label labels -> exists i, get_loc label labels = Some i.
Proof.
  induction labels as [|l ls IH]; intros Hin; [destruct Hin|]. simpl.
  destruct (String.eqb_spec l label) as [_|Hne]; [eauto|].
  destruct Hin as [Heq|Hin]; [contradiction|].
  destruct (IH Hin) as [i ->]. eauto.
Qed.

Lemma locate_present (labels cols : list string) :
  Forall (fun l => In l cols) labels -> exists idxs, locate labels cols = Ret idxs.
Proof.
  induction 1 as [|l ls Hl _ [idxs IH]]; simpl; [eauto|].
  destruct (get_loc_present l cols Hl) as [i ->]. rewrite IH. simpl. eauto.
Qed.

Lemma select_present (data : DataFrame) (labels : list string) :
  Forall (fun l => In l (columns data)) labels ->
  exists selected, select data labels = Ret selected /\ columns selected = labels.
Proof.
  intros H. unfold select. destruct (locate_present _ _ H) as [idxs ->].
  simpl. eauto.
Qed.


Lemma column_unique_head (df : DataFrame) (label : string) (others : list string) :
  columns df = label :: others -> ~ In label others ->
  exists values, column_unique df label = Ret values.
Proof.
  intros Hcols Hnot. unfold column_unique, column. rewrite Hcols. simpl.
  destruct (string_dec label label) as [_|]; [|contradiction].
  rewrite (proj1 (count_occ_not_In string_dec others label) Hnot).
  rewrite String.eqb_refl. simpl. eauto.
Qed.

Lemma choose_model_returns (selected : DataFrame) (target : string)
    (others : list string) (is_binary_target : bool) :
  columns selected = target :: others ->
  is_binary_target = true \/ ~ In target others ->
  exists model, choose_model (dropna selected) target is_binary_target = Ret model.
Proof.
  intros Hlabels Htarget. unfold choose_model.
  destruct is_binary_target; [eauto|].
  destruct Htarget as [|Hnot]; [discriminate|].
  destruct (column_unique_head (dropna selected) target others)
    as [values ->]; [exact Hlabels | exact Hnot | simpl; eauto].
Qed.

Lemma check_conditional_association_returns (target predictor : string)
    (controls : list string) (data : DataFrame) (alpha : float)
    (is_binary_target : bool) :
  Forall (fun c => In c (columns data)) (target :: predictor :: controls) ->
  is_binary_target = true \/ ~ In target (predictor :: controls) ->
  exists p sig det,
    check_conditional_association sm_fit target predictor controls data alpha
      is_binary_target = Ret (p, sig, det).
Proof.
  intros Hcols Htarget.
  destruct (select_present data _ Hcols) as (selected & Hsel & Hlabels).
  unfold check_conditional_association. rewrite Hsel. cbn [bind].
  destruct (_ <? _)%nat; [eauto|].
  destruct (choose_model_returns selected target (predictor :: controls)
              is_binary_target Hlabels Htarget) as [model ->].
  cbn [bind].
  match goal with
  | |- context [try_except ?b (fun e => Ret (@?f e))] =>
      destruct (try_except_contained b f) as [[[p sig] det] ->]
  end. eauto.
Qed.

Lemma is_nan_spec (x : float) : is_nan x = true -> Prim2SF x = S754_nan.
Proof.
  unfold is_nan. rewrite negb_true_iff, FloatAxioms.eqb_spec. unfold SFeqb.
  destruct (Prim2SF x) as [[]|[]| |[] m e]; cbn [SFcompare]; try discriminate;
    try reflexivity;
    rewrite Z.compare_refl, Pos.compare_cont_refl; discriminate.
Qed.

Lemma nan_not_below (p alpha : float) : is_nan p = true -> (p <? alpha) = false.
Proof.
  intros Hnan. rewrite FloatAxioms.ltb_spec. unfold SFltb.
  now rewrite (is_nan_spec p Hnan).
Qed.


(** C4 (as amended). [check_association] always returns: [(1.0, False)]
    when fewer than five complete rows remain, whatever the Pearson test
    would do, and also when the Pearson test raises; when the Pearson test
    returns a p-value, that p-value is returned with the flag [p < alpha],
    so a NaN p-value (a zero-variance input) is returned as NaN and not
    significant.  On a numeric frame with distinct labels that contains the
    target, the predictor and the controls, and with a target that is not
    also the predictor or a control, [check_conditional_association]
    returns: [(1.0, False)] with the insufficient-data marker when fewer
    than [len(cols) + 5] complete rows remain, and [(1.0, False)] with the
    error text when the model fit raises. *)
Theorem association_tests_contained :
  (forall var_x var_y alpha,
      (exists p sig, check_association pearsonr var_x var_y alpha = Ret (p, sig))
      /\ ((length (complete_pairs var_x var_y) < 5)%nat ->
          check_association pearsonr var_x var_y alpha = Ret (1, false))
      /\ (forall e,
             pearsonr (map fst (complete_pairs var_x var_y))
               (map snd (complete_pairs var_x var_y)) = Raise e ->
             check_association pearsonr var_x var_y alpha = Ret (1, false))
      /\ (forall r p_val,
             (5 <= length (complete_pairs var_x var_y))%nat ->
             pearsonr (map fst (complete_pairs var_x var_y))
               (map snd (complete_pairs var_x var_y)) = Ret (r, p_val) ->
             check_association pearsonr var_x var_y alpha
             = Ret (p_val, p_val <? alpha)
             /\ (is_nan p_val = true ->
                 check_association pearsonr var_x var_y alpha = Ret (p_val, false))))
  /\ (forall target predictor controls data alpha is_binary_target,
         NoDup (columns data) ->
         Forall (fun c => In c (columns data)) (target :: predictor :: controls) ->
         ~ In target (predictor :: controls) ->
         exists selected,
           select data (target :: predictor :: controls) = Ret selected
           /\ (exists p sig det,
                  check_conditional_association sm_fit target predictor controls
                    data alpha is_binary_target = Ret (p, sig, det))
           /\ ((len (dropna selected) < length (target :: predictor :: controls) + 5)%nat ->
               check_conditional_association sm_fit target predictor controls
                 data alpha is_binary_target
               = Ret (1, false, ErrorDetails "Insufficient data after dropping NaNs"))
           /\ ((length (target :: predictor :: controls) + 5 <= len (dropna selected))%nat ->
               exists model,
                 choose_model (dropna selected) target is_binary_target = Ret model
                 /\ forall e,
                      sm_fit model (dropna selected) target (predictor :: controls)
                      = Raise e ->
                      check_conditional_association sm_fit target predictor controls
                        data alpha is_binary_target
                      = Ret (1, false, ErrorDetails (str_exn e)))).
Proof.
  split.
  - intros var_x var_y alpha. split; [apply check_association_returns|].
    unfold check_association. rewrite !length_map. split; [|split].
    + intros Hlt. apply Nat.ltb_lt in Hlt. now rewrite Hlt.
    + intros e He. rewrite He. simpl. now destruct (_ <? 5)%nat.
    + intros r p_val Hge Hp. apply Nat.ltb_ge in Hge. rewrite Hge, Hp. simpl.
      split; [reflexivity|]. intros Hnan. now rewrite (nan_not_below _ _ Hnan).
  - intros target predictor controls data alpha is_binary_target _ Hcols Htarget.
    destruct (select_present data _ Hcols) as (selected & Hsel & Hlabels).
    exists selected. split; [assumption|].
    split; [apply check_conditional_association_returns; [assumption | now right]|].
    unfold check_conditional_association. rewrite Hsel. cbn [bind].
    destruct (choose_model_returns selected target (predictor :: controls)
                is_binary_target Hlabels (or_intror Htarget)) as [model Hmodel].
    rewrite Hmodel. cbn [bind].
    split.
    + intros Hlt. apply Nat.ltb_lt in Hlt. now rewrite Hlt.
    + intros Hge. exists model. split; [reflexivity|].
      intros e Hfit. apply Nat.ltb_ge in Hge. rewrite Hge.
      rewrite Hfit. reflexivity.
Qed.

(** *** Confounder validator *)




Lemma match_candidate_in_columns (cand : ConfounderCandidate) (cols : list string)
    (z : string) :
  match_candidate_to_column str_lower cand cols = Some z -> In z cols.
Proof.
  unfold match_candidate_to_column.
  destruct (existsb _ _); intros H; apply find_some in H; tauto.
Qed.

Lemma without_subset (z c : string) (covariates : list string) :
  In c (without z covariates) -> In c covariates.
Proof. unfold without. intros H. now apply filter_In in H. Qed.

(** On a well-formed study the validator returns, whatever the candidates
    and the regression library. *)
Lemma validate_candidates_returns (candidates : list ConfounderCandidate)
    (study : Study) (alpha : float) :
  well_formed study ->
  exists validated, validate_candidates sm_fit str_lower candidates study alpha = Ret validated.
Proof.
  intros (_ & Ht & Hy & Hcov & Hty & Htc & Hyc).
  induction candidates as [|cand rest [tail IH]]; simpl; [eauto|].
  rewrite IH.
  assert (Hentry : exists entry, validate_candidate sm_fit str_lower cand study alpha = Ret entry);
    [|destruct Hentry as [entry ->]; simpl; eauto].
  unfold validate_candidate.
  destruct (match_candidate_to_column str_lower cand (columns (data study))) as [z|] eqn:Ematch;
    [|eauto].
  apply match_candidate_in_columns in Ematch.
  destruct (String.eqb_spec z (treatment study)) as [|Hzt]; [simpl; eauto|].
  destruct (String.eqb_spec z (outcome study)) as [|Hzy]; [simpl; eauto|].
  cbn [orb]. destruct z as [|c z]; [eauto|].
  set (col := String c z) in *.
  assert (Hcontrols : Forall (fun c => In c (columns (data study)))
                        (without col (measured_covariates study))).
  { apply List.Forall_forall. intros x Hx. apply without_subset in Hx.
    rewrite List.Forall_forall in Hcov. now apply Hcov. }
  unfold check_confounding_criteria.
  destruct (check_conditional_association_returns (treatment study) col
              (without col (measured_covariates study)) (data study) alpha false)
    as (p_t & sig_t & det_t & ->).
  { repeat (constructor; [assumption|]). exact Hcontrols. }
  { right. intros [Heq|Hin]; [congruence|].
    apply without_subset in Hin. contradiction. }
  destruct (check_conditional_association_returns (outcome study) col
              (treatment study :: without col (measured_covariates study))
              (data study) alpha false)
    as (p_y & sig_y & det_y & ->).
  { repeat (constructor; [assumption|]). exact Hcontrols. }
  { right. intros [Heq|[Heq|Hin]]; [congruence..|].
    apply without_subset in Hin. contradiction. }
  simpl. eauto.
Qed.


(** *** Bias quantifier *)

Lemma truthy_some (o : option string) :
  truthy o = true -> exists z, o = Some z /\ z <> "" /\ fmt o = z.
Proof.
  destruct o as [[|c z]|]; simpl; try discriminate.
  intros _. exists (String c z). repeat split. discriminate.
Qed.

(** C2. When [estimate_bias] returns a result, the confounder is measured
    and the result rests on the naive effect of the study and on the effect
    adjusted for the matched column: it holds the naive and the adjusted
    estimate, their difference as bias magnitude, the bias percentage
    [magnitude / |adjusted| * 100] if [|adjusted| > 1e-10], else
    [magnitude / |naive| * 100] if [|naive| > 1e-10], else [0], and is
    problematic exactly when [|percentage| > bias_threshold * 100].  (Where
    the adjusted-effect fit fails the function has returned before these
    computations, with the naive estimate twice, zero bias and not
    problematic.) *)
Theorem estimate_bias_result (confounder after : ValidatedConfounder) (study : Study)
    (bias_threshold : float) (result : BiasEstimationResult) :
  estimate_bias sm_fit confounder study bias_threshold = (Ret result, after) ->
  exists z,
    is_measured confounder = true
    /\ matched_column confounder = Some z
    /\ naive_effect sm_fit study = Ret (naive_estimate result)
    /\ match _estimate_effect sm_fit (data study) (treatment study) (outcome study) [z] with
       | Ret adjusted =>
           let naive := naive_estimate result in
           let magnitude := result_bias_magnitude result in
           let percentage := result_bias_percentage result in
           adjusted_estimate result = adjusted
           /\ magnitude = naive - adjusted
           /\ percentage
              = (if tiny <? abs adjusted then magnitude / abs adjusted * 100
                 else if tiny <? abs naive then magnitude / abs naive * 100
                 else 0)
           /\ is_problematic result = (bias_threshold * 100 <? abs percentage)
       | Raise _ =>
           result = mkBias (naive_estimate result) (naive_estimate result) 0 0 false
       end.
Proof.
  unfold estimate_bias.
  destruct (is_measured confounder) eqn:Em; [|discriminate].
  destruct (truthy (matched_column confounder)) eqn:Et; [|discriminate].
  destruct (truthy_some _ Et) as (z & Hz & _ & ->). cbn [negb orb].
  destruct (naive_effect sm_fit study) as [naive|]; [|discriminate].
  intros Hresult. exists z. split; [reflexivity|]. split; [assumption|].
  destruct (_estimate_effect sm_fit (data study) (treatment study) (outcome study) [z])
    as [adjusted|]; injection Hresult as <- _;
    cbn [naive_estimate adjusted_estimate result_bias_magnitude
         result_bias_percentage is_problematic];
    (split; [reflexivity|]); [|reflexivity].
  split; [reflexivity|]. split; [reflexivity|]. split; [|reflexivity].
  destruct (tiny <? abs adjusted) eqn:Ea; [now rewrite Ea | reflexivity].
Qed.

(** The update of the confounder record by [estimate_bias]: the bias fields
    are filled in only when the adjusted-effect fit succeeded. *)
Lemma estimate_bias_record (confounder after : ValidatedConfounder) (study : Study)
    (bias_threshold : float) (result : BiasEstimationResult) :
  estimate_bias sm_fit confounder study bias_threshold = (Ret result, after) ->
  match _estimate_effect sm_fit (data study) (treatment study) (outcome study)
          [fmt (matched_column confounder)] with
  | Ret _ =>
      bias_magnitude after = Some (result_bias_magnitude result)
      /\ bias_percentage after = Some (result_bias_percentage result)
  | Raise _ => after = confounder
  end.
Proof.
  unfold estimate_bias.
  destruct (negb _ || negb _); [discriminate|].
  destruct (naive_effect sm_fit study); [|discriminate].
  destruct (_estimate_effect _ _ _ _ _); intros [= <- <-]; cbn; auto.
Qed.

(** C6. [estimate_bias] on a confounder that is not measured, or has no
    matched column, raises the invalid-usage error whatever the study and
    the regression library would give, and leaves the record as it was;
    [bound_unmeasured_confounder] on a measured confounder raises the
    invalid-usage error. *)
Theorem invalid_usage_raises (confounder : ValidatedConfounder) (study : Study) :
  (forall bias_threshold,
      is_measured confounder = false \/ matched_column confounder = None ->
      estimate_bias sm_fit confounder study bias_threshold
      = (Raise (ValueError "Cannot quantify precise bias for unmeasured confounders."),
         confounder))
  /\ (forall naive_estimate,
         is_measured confounder = true ->
         bound_unmeasured_confounder format_float confounder study naive_estimate
         = Raise (ValueError "Sensitivity analysis is for unmeasured confounders.")).
Proof.
  split.
  - intros bias_threshold [H|H]; unfold estimate_bias; rewrite H;
      [reflexivity | now rewrite orb_true_r].
  - intros naive_estimate H. unfold bound_unmeasured_confounder. now rewrite H.
Qed.

(** *** Sensitivity bound estimator *)

Lemma severity_map_lookup (label : string) :
  default 2.5 (severity_map !! label)
  = if String.eqb label "high" then 1.5
    else if String.eqb label "medium" then 2.5
    else if String.eqb label "low" then 4.0
    else 2.5.
Proof.
  unfold severity_map.
  destruct (String.eqb_spec label "high") as [->|Hh]; [reflexivity|].
  rewrite lookup_insert_ne by congruence.
  destruct (String.eqb_spec label "medium") as [->|Hm]; [reflexivity|].
  rewrite lookup_insert_ne by congruence.
  destruct (String.eqb_spec label "low") as [->|Hl]; [reflexivity|].
  rewrite lookup_insert_ne by congruence. reflexivity.
Qed.

(** C8. For an unmeasured confounder [bound_unmeasured_confounder] returns
    a required strength fixed by the lower-cased severity label -- 1.5 for
    high, 2.5 for medium, 4.0 for low, 2.5 for any other label -- and
    [could_invalidate_result] is true exactly when the required strength is
    below 2.0, that is exactly for severity high. *)
Theorem bound_unmeasured_confounder_spec (confounder : ValidatedConfounder)
    (study : Study) (naive_estimate : float) :
  is_measured confounder = false ->
  let label := lower (severity (candidate confounder)) in
  exists result,
    bound_unmeasured_confounder format_float confounder study naive_estimate
    = Ret result
    /\ (label = "high" -> required_strength result = 1.5)
    /\ (label = "medium" -> required_strength result = 2.5)
    /\ (label = "low" -> required_strength result = 4.0)
    /\ (label <> "high" -> label <> "medium" -> label <> "low" ->
        required_strength result = 2.5)
    /\ could_invalidate_result result = (required_strength result <? 2.0)
    /\ (could_invalidate_result result = true <-> label = "high").
Proof.
  intros Hm label. unfold bound_unmeasured_confounder. rewrite Hm.
  rewrite severity_map_lookup. fold label.
  destruct (String.eqb_spec label "high") as [Hh|Hh];
    [|destruct (String.eqb_spec label "medium") as [Hmed|Hmed];
      [|destruct (String.eqb_spec label "low") as [Hl|Hl]]];
    match goal with
    | |- context [if ?x <? 2.0 then _ else _] =>
        let b := eval vm_compute in (x <? 2.0) in
        replace (x <? 2.0) with b by (vm_compute; reflexivity)
    end;
    eexists; (split; [reflexivity|]); cbn;
    repeat split; try congruence; try (intros; exfalso; congruence).
Qed.

(** C10. The result of [bound_unmeasured_confounder] depends only on the
    candidate's name and severity: on unmeasured confounders with the same
    name and severity, calls with any two studies and any two naive
    estimates return the same result. *)
Theorem bound_unmeasured_confounder_ignores_study
    (confounder confounder' : ValidatedConfounder) (study study' : Study)
    (naive_estimate naive_estimate' : float) :
  is_measured confounder = false ->
  is_measured confounder' = false ->
  name (candidate confounder) = name (candidate confounder') ->
  severity (candidate confounder) = severity (candidate confounder') ->
  bound_unmeasured_confounder format_float confounder study naive_estimate
  = bound_unmeasured_confounder format_float confounder' study' naive_estimate'.
Proof.
  intros Hm Hm' Hname Hsev. unfold bound_unmeasured_confounder.
  now rewrite Hm, Hm', Hname, Hsev.
Qed.

End PipelineFacts.

(** * The pipeline on the sample studies *)

Example test_match_exact :
  match_candidate_to_column lower (mkCandidate "income" "" "" "" "high")
    ["student_age"; "income"; "received_treatment"] = Some "income".
Proof. reflexivity. Qed.

Example test_match_fuzzy :
  match_candidate_to_column lower (mkCandidate "age" "" "" "" "high")
    ["student_age"; "income"; "received_treatment"] = Some "student_age".
Proof. reflexivity. Qed.

Example test_match_none :
  match_candidate_to_column lower (mkCandidate "genetics" "" "" "" "high")
    ["student_age"; "income"; "received_treatment"] = None.
Proof. reflexivity. Qed.

Example test_match_short_string_blocked :
  match_candidate_to_column lower (mkCandidate "id" "" "" "" "high")
    ["video_id"; "user_id"] = None.
Proof. reflexivity. Qed.

Example test_rank_confounders :
  map (fun r => (name (candidate (confounder r)), ranked_severity r, priority r))
    (rank_confounders ranking_sample)
  = [("c1", "Critical", 1%nat); ("c3", "Critical", 1%nat); ("c2", "Minor", 4%nat)].
Proof. vm_compute. reflexivity. Qed.

Example test_validate_candidates_scenario_1 :
  exists validated,
    validate_candidates sample_fit lower sample_candidates scenario_1_study default_alpha
    = Ret validated
    /\ map (fun v => (name (candidate v), is_measured v, is_statistically_significant v))
         validated
       = [("student_age", true, true); ("school_size", true, false);
          ("motivation", false, false)].
Proof. eexists. split; vm_compute; reflexivity. Qed.

Example test_conditional_association_fit_failure :
  check_conditional_association failing_fit "test_score" "student_age"
    ["received_tutoring"] (data scenario_1_study) default_alpha false
  = Ret (1, false, ErrorDetails "Singular matrix").
Proof. vm_compute. reflexivity. Qed.

Example test_conditional_association_insufficient :
  check_conditional_association sample_fit "test_score" "student_age"
    ["received_tutoring"] (data tiny_study) default_alpha false
  = Ret (1, false, ErrorDetails "Insufficient data after dropping NaNs").
Proof. vm_compute. reflexivity. Qed.

Example scenario_1_study_well_formed : well_formed scenario_1_study.
Proof.
  split; [apply (bool_decide_unpack _); vm_compute; exact I|].
  split; [simpl; tauto|]. split; [simpl; tauto|].
  split; [repeat constructor; simpl; tauto|].
  split; [discriminate|].
  split; simpl; intros [H|[H|[]]]; discriminate H.
Qed.

Example test_bound_high_severity :
  bound_unmeasured_confounder sample_format genetics scenario_1_study 2.5
  = Ret (mkSensitivity 1.5 true
           "If 'genetics' has even a moderate effect (RR > 1.5), it could completely invalidate the observed treatment effect.").
Proof. vm_compute. reflexivity. Qed.

Example test_estimate_bias_measured :
  estimate_bias sample_fit age_confounder scenario_1_study default_bias_threshold
  = (Ret (mkBias 7.5 5 2.5 50 true),
     mkValidated (candidate age_confounder) true (Some "student_age") None None true
       (Some 2.5) (Some 50)).
Proof. vm_compute. reflexivity. Qed.

(** C3. With four rows the adjusted-effect fit fails for lack of data:
    [estimate_bias] returns a zero bias, but the confounder record is left
    as it was, its bias magnitude and percentage still unset. *)
Theorem estimate_bias_failed_fit_leaves_record_unset :
  estimate_bias sample_fit age_confounder tiny_study default_bias_threshold
  = (Ret (mkBias 12.5 12.5 0 0 false), age_confounder)
  /\ bias_magnitude age_confounder = None
  /\ bias_percentage age_confounder = None.
Proof. split; [vm_compute; reflexivity|]. split; reflexivity. Qed.


(** C7, counterexample.  The candidate name "aİ" has two characters and its
    lower-cased form has three ([str.lower] turns U+0130 into two
    characters): no lower-cased label equals it, and the matcher returns
    the column "xaİy", whose lower-cased label contains it. *)
Lemma match_candidate_to_column_short_name :
  char_count (name dotted_candidate) = 2%nat
  /\ char_count (lower_dotted (name dotted_candidate)) = 3%nat
  /\ ~ Exists (exact_match lower_dotted dotted_candidate) ["xaİy"]
  /\ match_candidate_to_column lower_dotted dotted_candidate ["xaİy"] = Some "xaİy".
Proof.
  split; [reflexivity|]. split; [reflexivity|]. split; [|reflexivity].
  intros H. apply exact_test_spec in H. discriminate H.
Qed.

(** C4, counterexample.  A target that is not a column of the frame makes
    [check_conditional_association] raise. *)
Lemma check_conditional_association_raises :
  check_conditional_association sample_fit "motivation" "student_age" []
    (data scenario_1_study) default_alpha false
  = Raise (KeyError "motivation").
Proof. vm_compute. reflexivity. Qed.

(** C9, counterexample.  Of two records under one name the later one fixes
    the entry: the confirmed confounder is measured and significant, yet
    the strategies under its name do not contain "control". *)
Lemma suggest_corrections_shared_name :
  In confirmed_x [confirmed_x; unmeasured_x]
  /\ is_measured confirmed_x = true
  /\ is_statistically_significant confirmed_x = true
  /\ actions_of (suggest_corrections [confirmed_x; unmeasured_x]) confirmed_x
     = Some ["sensitivity"; "study_design"].
Proof.
  split; [now left|]. split; [reflexivity|]. split; [reflexivity|].
  vm_compute. reflexivity.
Qed.

(** * The properties at the sample inputs *)


Lemma estimate_bias_result_witness :
  estimate_bias sample_fit age_confounder scenario_1_study default_bias_threshold
  = (Ret (mkBias 7.5 5 2.5 50 true),
     mkValidated (candidate age_confounder) true (Some "student_age") None None true
       (Some 2.5) (Some 50))
  /\ exists z,
       matched_column age_confounder = Some z
       /\ naive_effect sample_fit scenario_1_study = Ret 7.5.
Proof.
  assert (H : estimate_bias sample_fit age_confounder scenario_1_study
                default_bias_threshold
              = (Ret (mkBias 7.5 5 2.5 50 true),
                 mkValidated (candidate age_confounder) true (Some "student_age")
                   None None true (Some 2.5) (Some 50)))
    by (vm_compute; reflexivity).
  split; [exact H|].
  destruct (estimate_bias_result sample_fit _ _ _ _ _ H) as (z & _ & Hz & Hn & _).
  exists z. split; [exact Hz | exact Hn].
Defined.

Lemma association_tests_contained_witness :
  NoDup (columns (data scenario_1_study))
  /\ Forall (fun c => In c (columns (data scenario_1_study)))
       ["test_score"; "student_age"; "received_tutoring"]
  /\ ~ In "test_score" ["student_age"; "received_tutoring"]
  /\ exists p sig det,
       check_conditional_association sample_fit "test_score" "student_age"
         ["received_tutoring"] (data scenario_1_study) default_alpha false
       = Ret (p, sig, det).
Proof.
  assert (Hnd : NoDup (columns (data scenario_1_study)))
    by (apply (bool_decide_unpack _); vm_compute; exact I).
  assert (Hall : Forall (fun c => In c (columns (data scenario_1_study)))
                   ["test_score"; "student_age"; "received_tutoring"])
    by (repeat constructor; simpl; tauto).
  assert (Hnot : ~ In "test_score" ["student_age"; "received_tutoring"])
    by (simpl; intros [H|[H|[]]]; discriminate H).
  split; [exact Hnd|]. split; [exact Hall|]. split; [exact Hnot|].
  destruct (proj2 (association_tests_contained sample_pearsonr sample_fit)
              "test_score" "student_age" ["received_tutoring"]
              (data scenario_1_study) default_alpha false Hnd Hall Hnot)
    as (selected & _ & Hret & _).
  exact Hret.
Defined.

Lemma rank_confounders_witness :
  exists entries,
    Permutation (rank_confounders ranking_sample) entries
    /\ StronglySorted by_priority (rank_confounders ranking_sample).
Proof.
  destruct (rank_confounders_spec ranking_sample) as (entries & _ & Hp & Hs & _).
  exists entries. split; [exact Hp | exact Hs].
Defined.

Lemma invalid_usage_raises_witness :
  (is_measured genetics = false \/ matched_column genetics = None)
  /\ estimate_bias sample_fit genetics small_study default_bias_threshold
     = (Raise (ValueError "Cannot quantify precise bias for unmeasured confounders."),
        genetics)
  /\ is_measured age_confounder = true
  /\ bound_unmeasured_confounder sample_format age_confounder small_study 2.5
     = Raise (ValueError "Sensitivity analysis is for unmeasured confounders.").
Proof.
  split; [left; reflexivity|]. split.
  - apply (proj1 (invalid_usage_raises sample_fit sample_format genetics small_study)).
    left; reflexivity.
  - split; [reflexivity|].
    apply (proj2 (invalid_usage_raises sample_fit sample_format age_confounder
                    small_study)).
    reflexivity.
Defined.

Lemma match_candidate_to_column_witness :
  (exists col,
      match_candidate_to_column lower (mkCandidate "income" "" "" "" "high")
        ["student_age"; "income"; "received_treatment"] = Some col
      /\ first_such (exact_match lower (mkCandidate "income" "" "" "" "high"))
           ["student_age"; "income"; "received_treatment"] col)
  /\ (exists col,
         match_candidate_to_column lower (mkCandidate "age" "" "" "" "high")
           ["student_age"; "income"; "received_treatment"] = Some col
         /\ first_such (fuzzy_match lower (mkCandidate "age" "" "" "" "high"))
              ["student_age"; "income"; "received_treatment"] col)
  /\ match_candidate_to_column lower (mkCandidate "id" "" "" "" "high")
       ["video_id"; "user_id"] = None
  /\ match_candidate_to_column lower (mkCandidate "genetics" "" "" "" "high")
       ["student_age"; "income"; "received_treatment"] = None.
Proof.
  split; [|split; [|split]].
  - apply (proj1 (match_candidate_to_column_spec lower _ _)).
    apply exact_test_spec. reflexivity.
  - apply (proj1 (proj2 (match_candidate_to_column_spec lower _ _))).
    + intros H. apply exact_test_spec in H. discriminate H.
    + vm_compute. lia.
    + apply List.Exists_cons_hd. apply fuzzy_test_spec. reflexivity.
  - apply (proj1 (proj2 (proj2 (match_candidate_to_column_spec lower _ _)))).
    + intros H. apply exact_test_spec in H. discriminate H.
    + vm_compute. lia.
  - apply (proj2 (proj2 (proj2 (match_candidate_to_column_spec lower _ _)))).
    + intros H. apply exact_test_spec in H. discriminate H.
    + intros H. apply List.Exists_exists in H as (col & Hin & Hf).
      apply fuzzy_test_spec in Hf.
      simpl in Hin. destruct Hin as [<-|[<-|[<-|[]]]]; discriminate Hf.
Defined.

Lemma bound_unmeasured_confounder_witness :
  is_measured genetics = false
  /\ exists result,
       bound_unmeasured_confounder sample_format genetics small_study 2.5 = Ret result
       /\ required_strength result = 1.5
       /\ could_invalidate_result result = true.
Proof.
  split; [reflexivity|].
  destruct (bound_unmeasured_confounder_spec sample_format genetics small_study 2.5
              eq_refl) as (result & Hret & Hhigh & _ & _ & _ & _ & Hiff).
  exists result. split; [exact Hret|]. split.
  - apply Hhigh. reflexivity.
  - apply Hiff. reflexivity.
Defined.

Lemma suggest_corrections_witness :
  NoDup (names_of ranking_sample)
  /\ In critical_c1 ranking_sample
  /\ exists actions,
       actions_of (suggest_corrections ranking_sample) critical_c1 = Some actions
       /\ In "control" actions
       /\ In "stratify" actions.
Proof.
  assert (Hnd : NoDup (names_of ranking_sample))
    by (apply (bool_decide_unpack _); vm_compute; exact I).
  assert (Hin : In critical_c1 ranking_sample) by (right; left; reflexivity).
  split; [exact Hnd|]. split; [exact Hin|].
  destruct (suggest_corrections_spec ranking_sample critical_c1 Hnd Hin)
    as (Hsig & _ & _).
  destruct (Hsig eq_refl eq_refl) as (actions & Hact & Hcontrol & Hstratify).
  exists actions. split; [exact Hact|]. split; [exact Hcontrol|].
  apply Hstratify. vm_compute. reflexivity.
Defined.

Lemma bound_unmeasured_confounder_ignores_study_witness :
  is_measured genetics = false
  /\ bound_unmeasured_confounder sample_format genetics small_study 2.5
     = bound_unmeasured_confounder sample_format genetics scenario_1_study 7.5.
Proof.
  split; [reflexivity|].
  apply (bound_unmeasured_confounder_ignores_study sample_format genetics genetics
           small_study scenario_1_study 2.5 7.5); reflexivity.
Defined.

(** * Further properties *)

Section ValidatorFacts.

Variable sm_fit :
  model_class -> DataFrame -> string -> list string -> may_raise RegressionResults.
Variable str_lower : string -> string.

Lemma validate_candidate_skips (cand : ConfounderCandidate) (study : Study)
    (alpha : float) (entry : option ValidatedConfounder) :
  validate_candidate sm_fit str_lower cand study alpha = Ret entry ->
  match entry with
  | Some v => restates str_lower study cand = false /\ candidate v = cand
  | None => restates str_lower study cand = true
  end.
Proof.
  unfold validate_candidate, restates.
  destruct (match_candidate_to_column str_lower cand (columns (data study))) as [z|].
  - destruct (_ || _); [now intros [= <-]|].
    destruct z as [|c z]; [now intros [= <-]|].
    destruct (check_confounding_criteria _ _ _ _ _ _ _); [|discriminate].
    simpl. now intros [= <-].
  - now intros [= <-].
Qed.

(** X1. The validator returns one record per candidate that is not matched
    to the treatment or the outcome column, in the order of the candidates. *)
Theorem validate_candidates_order (candidates : list ConfounderCandidate)
    (study : Study) (alpha : float) (validated : list ValidatedConfounder) :
  validate_candidates sm_fit str_lower candidates study alpha = Ret validated ->
  map candidate validated
  = List.filter (fun cand => negb (restates str_lower study cand)) candidates.
Proof.
  revert validated. induction candidates as [|cand rest IH]; simpl; intros validated.
  - now intros [= <-].
  - destruct (validate_candidate sm_fit str_lower cand study alpha) as [entry|] eqn:E;
      [|discriminate].
    destruct (validate_candidates sm_fit str_lower rest study alpha) as [tail|]; [|discriminate].
    simpl. intros [= <-]. apply validate_candidate_skips in E.
    destruct entry as [v|].
    + destruct E as [Hkeep Hcand]. cbn [map List.filter].
      rewrite Hkeep, Hcand. cbn [negb]. now rewrite (IH tail eq_refl).
    + cbn [List.filter]. rewrite E. cbn [negb]. now apply IH.
Qed.

Lemma validate_candidate_shape (cand : ConfounderCandidate) (study : Study)
    (alpha : float) (v : ValidatedConfounder) :
  validate_candidate sm_fit str_lower cand study alpha = Ret (Some v) ->
  bias_magnitude v = None /\ bias_percentage v = None
  /\ (is_measured v = false ->
      matched_column v = None /\ causes_treatment_pval v = None
      /\ causes_outcome_pval v = None /\ is_statistically_significant v = false)
  /\ (is_measured v = true ->
      exists z,
        matched_column v = Some z /\ In z (columns (data study)) /\ z <> ""
        /\ z <> treatment study /\ z <> outcome study
        /\ is_Some (causes_treatment_pval v) /\ is_Some (causes_outcome_pval v)).
Proof.
  unfold validate_candidate.
  destruct (match_candidate_to_column str_lower cand (columns (data study))) as [z|] eqn:Ematch.
  - apply match_candidate_in_columns in Ematch.
    destruct (String.eqb_spec z (treatment study)) as [|Hzt]; [discriminate|].
    destruct (String.eqb_spec z (outcome study)) as [|Hzy]; [discriminate|].
    cbn [orb]. destruct z as [|c z].
    + intros [= <-]. simpl. repeat split; discriminate.
    + destruct (check_confounding_criteria _ _ _ _ _ _ _); [|discriminate].
      simpl. intros [= <-]. simpl. split; [reflexivity|]. split; [reflexivity|].
      split; [discriminate|]. intros _. exists (String c z).
      repeat split; eauto; discriminate.
  - intros [= <-]. simpl. repeat split; discriminate.
Qed.

(** X2. Every record the validator returns has its bias fields unset.  An
    unmeasured record has no column, no p-values and is not significant; a
    measured record names a column of the frame, not the empty label, not
    the treatment and not the outcome, and carries both p-values. *)
Theorem validate_candidates_records (candidates : list ConfounderCandidate)
    (study : Study) (alpha : float) (validated : list ValidatedConfounder) :
  validate_candidates sm_fit str_lower candidates study alpha = Ret validated ->
  Forall
    (fun v =>
       bias_magnitude v = None /\ bias_percentage v = None
       /\ (is_measured v = false ->
           matched_column v = None /\ causes_treatment_pval v = None
           /\ causes_outcome_pval v = None /\ is_statistically_significant v = false)
       /\ (is_measured v = true ->
           exists z,
             matched_column v = Some z /\ In z (columns (data study)) /\ z <> ""
             /\ z <> treatment study /\ z <> outcome study
             /\ is_Some (causes_treatment_pval v) /\ is_Some (causes_outcome_pval v)))
    validated.
Proof.
  revert validated. induction candidates as [|cand rest IH]; simpl; intros validated.
  - intros [= <-]. constructor.
  - destruct (validate_candidate sm_fit str_lower cand study alpha) as [entry|] eqn:E;
      [|discriminate].
    destruct (validate_candidates sm_fit str_lower rest study alpha) as [tail|]; [|discriminate].
    simpl. intros [= <-]. specialize (IH tail eq_refl).
    destruct entry as [v|]; [|assumption].
    constructor; [|assumption]. now apply validate_candidate_shape in E.
Qed.

Lemma select_len (data selected : DataFrame) (labels : list string) :
  select data labels = Ret selected -> len selected = len data.
Proof.
  unfold select. destruct (locate labels (columns data)); simpl; [|discriminate].
  intros [= <-]. unfold len. simpl. apply length_map.
Qed.

Lemma dropna_len (df : DataFrame) : (len (dropna df) <= len df)%nat.
Proof. unfold len, dropna. simpl. apply List.filter_length_le. Qed.

Lemma check_conditional_association_small (target predictor : string)
    (controls : list string) (data : DataFrame) (alpha : float)
    (is_binary_target : bool) (outcome : float * bool * details) :
  (len data < length controls + 7)%nat ->
  check_conditional_association sm_fit target predictor controls data alpha
    is_binary_target = Ret outcome ->
  outcome = (1, false, ErrorDetails "Insufficient data after dropping NaNs").
Proof.
  intros Hsmall. unfold check_conditional_association.
  destruct (select data (target :: predictor :: controls)) as [selected|] eqn:Esel;
    [|discriminate].
  cbn [bind]. apply select_len in Esel. pose proof (dropna_len selected) as Hdrop.
  replace (_ <? _)%nat with true; [now intros [= <-]|].
  symmetry. apply Nat.ltb_lt. cbn [length]. lia.
Qed.

Lemma check_confounding_criteria_small (z t y : string) (covariates : list string)
    (data : DataFrame) (alpha : float) (stats : criteria) :
  (len data < length covariates + 7)%nat ->
  check_confounding_criteria sm_fit z t y covariates data alpha = Ret stats ->
  is_statistical_confounder stats = false
  /\ p_value (causes_treatment stats) = 1
  /\ p_value (causes_outcome stats) = 1.
Proof.
  intros Hsmall. unfold check_confounding_criteria.
  destruct (check_conditional_association sm_fit t z covariates data alpha false)
    as [test_t|] eqn:Et; [|discriminate].
  destruct (check_conditional_association sm_fit y z (t :: covariates) data alpha false)
    as [test_y|] eqn:Ey; [|discriminate].
  apply check_conditional_association_small in Et; [|assumption].
  apply check_conditional_association_small in Ey; [|cbn [length]; lia].
  subst. simpl. now intros [= <-].
Qed.

(** X3. On a study of fewer than seven rows no candidate is confirmed: every
    record the validator returns is not significant, and a measured record
    carries the p-values 1.0 of the two tests that were not attempted. *)
Theorem validate_candidates_small_study (candidates : list ConfounderCandidate)
    (study : Study) (alpha : float) (validated : list ValidatedConfounder) :
  (len (data study) < 7)%nat ->
  validate_candidates sm_fit str_lower candidates study alpha = Ret validated ->
  Forall
    (fun v =>
       is_statistically_significant v = false
       /\ (is_measured v = true ->
           causes_treatment_pval v = Some 1 /\ causes_outcome_pval v = Some 1))
    validated.
Proof.
  intros Hsmall. revert validated.
  induction candidates as [|cand rest IH]; simpl; intros validated.
  - intros [= <-]. constructor.
  - destruct (validate_candidate sm_fit str_lower cand study alpha) as [entry|] eqn:E;
      [|discriminate].
    destruct (validate_candidates sm_fit str_lower rest study alpha) as [tail|]; [|discriminate].
    simpl. intros [= <-]. specialize (IH tail eq_refl).
    destruct entry as [v|]; [|assumption].
    constructor; [|assumption]. clear IH. revert E. unfold validate_candidate.
    destruct (match_candidate_to_column str_lower cand (columns (data study))) as [z|];
      [|intros [= <-]; split; [reflexivity | discriminate]].
    destruct (_ || _); [discriminate|].
    destruct z as [|c z]; [intros [= <-]; split; [reflexivity | discriminate]|].
    destruct (check_confounding_criteria _ _ _ _ _ _ _) as [stats|] eqn:Es;
      [|discriminate].
    apply check_confounding_criteria_small in Es as (Hsig & Hpt & Hpy); [|lia].
    simpl. intros [= <-]. simpl. rewrite Hsig, Hpt, Hpy. auto.
Qed.

End ValidatorFacts.

Section BiasFacts.

Variable sm_fit :
  model_class -> DataFrame -> string -> list string -> may_raise RegressionResults.
Variable str_lower : string -> string.

Lemma estimate_bias_after (confounder after : ValidatedConfounder)
    (study : Study) (bias_threshold : float)
    (outcome : may_raise BiasEstimationResult) :
  estimate_bias sm_fit confounder study bias_threshold = (outcome, after) ->
  after = confounder
  \/ exists magnitude percentage,
       after = mkValidated (candidate confounder) (is_measured confounder)
                 (matched_column confounder) (causes_treatment_pval confounder)
                 (causes_outcome_pval confounder)
                 (is_statistically_significant confounder)
                 (Some magnitude) (Some percentage).
Proof.
  unfold estimate_bias.
  destruct (negb _ || negb _); [intros [= _ <-]; now left|].
  destruct (naive_effect sm_fit study); [|intros [= _ <-]; now left].
  destruct (_estimate_effect _ _ _ _ _); intros [= _ <-]; [right; eauto | now left].
Qed.

(** X4. Whatever [estimate_bias] returns or raises, it leaves the
    candidate, the measurement verdict, the matched column, the two
    p-values and the significance verdict of the record as they were. *)
Theorem estimate_bias_preserves (confounder after : ValidatedConfounder)
    (study : Study) (bias_threshold : float)
    (outcome : may_raise BiasEstimationResult) :
  estimate_bias sm_fit confounder study bias_threshold = (outcome, after) ->
  candidate after = candidate confounder
  /\ is_measured after = is_measured confounder
  /\ matched_column after = matched_column confounder
  /\ causes_treatment_pval after = causes_treatment_pval confounder
  /\ causes_outcome_pval after = causes_outcome_pval confounder
  /\ is_statistically_significant after = is_statistically_significant confounder.
Proof.
  intros H. apply estimate_bias_after in H as [->|(magnitude & percentage & ->)];
    repeat split.
Qed.

(** X5. [estimate_bias] does not read the bias fields it writes: called
    again on the record it left, it returns the same result and leaves the
    same record. *)
Theorem estimate_bias_again (confounder after : ValidatedConfounder)
    (study : Study) (bias_threshold : float) (result : BiasEstimationResult) :
  estimate_bias sm_fit confounder study bias_threshold = (Ret result, after) ->
  estimate_bias sm_fit after study bias_threshold = (Ret result, after).
Proof.
  unfold estimate_bias.
  destruct (negb (is_measured confounder) || negb (truthy (matched_column confounder)))
    eqn:Eguard; [discriminate|].
  destruct (naive_effect sm_fit study) as [naive|]; [|discriminate].
  destruct (_estimate_effect sm_fit (data study) (treatment study) (outcome study)
              [fmt (matched_column confounder)]) as [adjusted|] eqn:Eadj;
    intros [= <- <-]; cbn [is_measured matched_column]; rewrite Eguard, ?Eadj;
    reflexivity.
Qed.

Lemma dropna_subset_len (df kept : DataFrame) (labels : list string) :
  dropna_subset df labels = Ret kept -> (len kept <= len df)%nat.
Proof.
  unfold dropna_subset. destruct (locate labels (columns df)); simpl; [|discriminate].
  intros [= <-]. unfold len. simpl. apply List.filter_length_le.
Qed.

Lemma _estimate_effect_small (data : DataFrame) (treatment outcome : string)
    (controls : list string) :
  (len data < length controls + 5)%nat ->
  exists e, _estimate_effect sm_fit data treatment outcome controls = Raise e.
Proof.
  intros Hsmall. unfold _estimate_effect.
  destruct (dropna_subset data (treatment :: outcome :: controls)) as [kept|e] eqn:E;
    [|simpl; eauto].
  apply dropna_subset_len in E. cbn [bind].
  replace (_ <? _)%nat with true; [eauto|].
  symmetry. apply Nat.ltb_lt. lia.
Qed.

(** X6. On a study of fewer than six rows [estimate_bias] never reports a
    bias: when it returns, the adjusted estimate is the naive one, magnitude
    and percentage are zero, the confounder is not problematic and its
    record is left as it was. *)
Theorem estimate_bias_small_study (confounder after : ValidatedConfounder)
    (study : Study) (bias_threshold : float) (result : BiasEstimationResult) :
  (len (data study) < 6)%nat ->
  estimate_bias sm_fit confounder study bias_threshold = (Ret result, after) ->
  result = mkBias (naive_estimate result) (naive_estimate result) 0 0 false
  /\ after = confounder.
Proof.
  intros Hsmall. unfold estimate_bias.
  destruct (negb _ || negb _); [discriminate|].
  destruct (naive_effect sm_fit study) as [naive|]; [|discriminate].
  destruct (_estimate_effect_small (data study) (treatment study) (outcome study)
              [fmt (matched_column confounder)]) as [e ->]; [simpl; lia|].
  intros [= <- <-]. split; reflexivity.
Qed.

Lemma column_present (df : DataFrame) (label : string) :
  In label (columns df) -> exists values, column df label = Ret values.
Proof.
  intros Hin. unfold column.
  destruct (get_loc_present label (columns df) Hin) as [i ->]. eauto.
Qed.

Lemma naive_effect_well_formed (study : Study) :
  In (treatment study) (columns (data study)) ->
  In (outcome study) (columns (data study)) ->
  (exists naive, naive_effect sm_fit study = Ret naive)
  \/ naive_effect sm_fit study
     = Raise (ValueError "Naive estimation failed on continuous treatment").
Proof.
  intros Ht Hy. unfold naive_effect.
  destruct (_estimate_effect sm_fit (data study) (treatment study) (outcome study) [])
    as [naive|e]; [left; simpl; eauto|].
  cbn [try_except].
  destruct (column_present _ _ Ht) as [t_values Et].
  destruct (column_present _ _ Hy) as [y_values Ey].
  rewrite Et. cbn [bind].
  destruct (forallb is_zero_one t_values); [left|right; reflexivity].
  unfold group_mean. rewrite Et, Ey. simpl. eauto.
Qed.

Lemma naive_effect_binary (study : Study) (t_values : list float) :
  column (data study) (treatment study) = Ret t_values ->
  forallb is_zero_one t_values = true ->
  In (outcome study) (columns (data study)) ->
  exists naive, naive_effect sm_fit study = Ret naive.
Proof.
  intros Et Hbin Hy. unfold naive_effect.
  destruct (_estimate_effect sm_fit (data study) (treatment study) (outcome study) [])
    as [naive|e]; [simpl; eauto|].
  cbn [try_except]. destruct (column_present _ _ Hy) as [y_values Ey].
  rewrite Et. cbn [bind]. rewrite Hbin.
  unfold group_mean. rewrite Et, Ey. simpl. eauto.
Qed.

Lemma estimate_bias_outcomes (confounder : ValidatedConfounder) (study : Study)
    (bias_threshold : float) :
  is_measured confounder = true ->
  truthy (matched_column confounder) = true ->
  match naive_effect sm_fit study with
  | Ret naive =>
      exists result after,
        estimate_bias sm_fit confounder study bias_threshold = (Ret result, after)
        /\ naive_estimate result = naive
  | Raise e =>
      estimate_bias sm_fit confounder study bias_threshold = (Raise e, confounder)
  end.
Proof.
  intros Hm Ht. unfold estimate_bias. rewrite Hm, Ht. cbn [negb orb].
  destruct (naive_effect sm_fit study) as [naive|e]; [|reflexivity].
  destruct (_estimate_effect _ _ _ _ _); eauto.
Qed.

Lemma validated_quantifiable (candidates : list ConfounderCandidate) (study : Study)
    (alpha : float) (validated : list ValidatedConfounder) :
  validate_candidates sm_fit str_lower candidates study alpha = Ret validated ->
  Forall quantifiable validated.
Proof.
  revert validated. induction candidates as [|cand rest IH]; simpl; intros validated.
  - intros [= <-]. constructor.
  - destruct (validate_candidate sm_fit str_lower cand study alpha) as [entry|] eqn:E;
      [|discriminate].
    destruct (validate_candidates sm_fit str_lower rest study alpha) as [tail|]; [|discriminate].
    simpl. intros [= <-]. specialize (IH tail eq_refl).
    destruct entry as [v|]; [|assumption].
    constructor; [|assumption].
    apply validate_candidate_shape in E as (_ & _ & _ & Hm). intros Hmeasured.
    destruct (Hm Hmeasured) as (z & -> & _ & Hne & _).
    destruct z; [contradiction|reflexivity].
Qed.

End BiasFacts.

Section AuditFacts.

Variable sm_fit :
  model_class -> DataFrame -> string -> list string -> may_raise RegressionResults.
Variable str_lower : string -> string.

Lemma estimate_bias_naive (confounder after : ValidatedConfounder) (study : Study)
    (bias_threshold : float) (result : BiasEstimationResult) :
  estimate_bias sm_fit confounder study bias_threshold = (Ret result, after) ->
  naive_effect sm_fit study = Ret (naive_estimate result).
Proof.
  unfold estimate_bias.
  destruct (negb _ || negb _); [discriminate|].
  destruct (naive_effect sm_fit study) as [naive|]; [|discriminate].
  destruct (_estimate_effect _ _ _ _ _); now intros [= <- _].
Qed.

Lemma quantify_bias_returns (validated : list ValidatedConfounder) (study : Study)
    (naive_est : option float) (naive : float) :
  Forall quantifiable validated ->
  naive_effect sm_fit study = Ret naive ->
  exists quantified, quantify_bias sm_fit validated study naive_est = Ret quantified.
Proof.
  intros Hq Hnaive. revert naive_est.
  induction Hq as [|v rest Hv _ IH]; intros naive_est; simpl; [eauto|].
  destruct (is_measured v) eqn:Em; cbn [andb].
  - destruct (is_statistically_significant v).
    + pose proof (estimate_bias_outcomes sm_fit v study default_bias_threshold
                    Em (Hv Em)) as Hout.
      rewrite Hnaive in Hout. destruct Hout as (result & after & -> & _).
      match goal with
      | |- context [quantify_bias sm_fit rest study ?est] =>
          destruct (IH est) as [later ->]
      end. simpl. eauto.
    + destruct (IH naive_est) as [later ->]. simpl. eauto.
  - destruct (IH naive_est) as [later ->]. simpl. eauto.
Qed.

Lemma quantify_bias_raises (validated : list ValidatedConfounder) (study : Study)
    (naive_est : option float) (e e' : exn) :
  Forall quantifiable validated ->
  naive_effect sm_fit study = Raise e ->
  quantify_bias sm_fit validated study naive_est = Raise e' ->
  e' = e.
Proof.
  intros Hq Hnaive. revert naive_est.
  induction Hq as [|v rest Hv _ IH]; intros naive_est; simpl; [discriminate|].
  destruct (is_measured v) eqn:Em; cbn [andb].
  - destruct (is_statistically_significant v).
    + pose proof (estimate_bias_outcomes sm_fit v study default_bias_threshold
                    Em (Hv Em)) as Hout.
      rewrite Hnaive in Hout. rewrite Hout. now intros [= <-].
    + destruct (quantify_bias sm_fit rest study naive_est) eqn:E; [discriminate|].
      simpl. intros [= <-]. now apply (IH naive_est).
  - destruct (quantify_bias sm_fit rest study naive_est) eqn:E; [discriminate|].
    simpl. intros [= <-]. now apply (IH naive_est).
Qed.

(** X7. On a well-formed study the audit (validation, bias quantification,
    report) can fail in one way only: with the error of the naive estimate
    on a treatment that is not 0/1.  In particular [estimate_bias] is never
    called on a record that violates its precondition, and when the
    treatment column holds only 0 and 1 the audit returns a report. *)
Theorem audit_fails_only_on_continuous_treatment
    (candidates : list ConfounderCandidate) (study : Study) :
  well_formed study ->
  ((exists report, audit sm_fit str_lower candidates study = Ret report)
   \/ audit sm_fit str_lower candidates study = Raise continuous_treatment_error)
  /\ (forall t_values,
         column (data study) (treatment study) = Ret t_values ->
         forallb is_zero_one t_values = true ->
         exists report, audit sm_fit str_lower candidates study = Ret report).
Proof.
  intros Hwf. unfold audit.
  destruct (validate_candidates_returns sm_fit str_lower candidates study default_alpha Hwf)
    as [validated Hv].
  rewrite Hv. cbn [bind].
  pose proof (validated_quantifiable sm_fit str_lower _ _ _ _ Hv) as Hq.
  destruct Hwf as (_ & Ht & Hy & _).
  split.
  - destruct (naive_effect_well_formed sm_fit study Ht Hy) as [[naive Hn]|Hn].
    + left. destruct (quantify_bias_returns validated study None naive Hq Hn)
        as [quantified ->]. simpl. eauto.
    + destruct (quantify_bias sm_fit validated study None) as [quantified|e] eqn:E.
      * left. simpl. eauto.
      * right. simpl. f_equal. exact (quantify_bias_raises _ _ _ _ _ Hq Hn E).
  - intros t_values Et Hbin.
    destruct (naive_effect_binary sm_fit study t_values Et Hbin Hy) as [naive Hn].
    destruct (quantify_bias_returns validated study None naive Hq Hn)
      as [quantified ->]. simpl. eauto.
Qed.

(** X8. When the bias-quantification loop of the audit completes, it
    returns the records in the same order with candidate, measurement,
    matched column and significance unchanged, and the records that are not
    confirmed exactly as they were.  Started without a naive estimate, it
    ends without one exactly when no record is confirmed, and otherwise with
    the naive effect of the study; started with one, it keeps it. *)
Theorem quantify_bias_result (validated updated : list ValidatedConfounder)
    (study : Study) (naive_est naive : option float) :
  quantify_bias sm_fit validated study naive_est = Ret (updated, naive) ->
  Forall2
    (fun v u =>
       candidate u = candidate v /\ is_measured u = is_measured v
       /\ matched_column u = matched_column v
       /\ is_statistically_significant u = is_statistically_significant v
       /\ (confirmed v = false -> u = v))
    validated updated
  /\ match naive_est with
     | Some _ => naive = naive_est
     | None =>
         (naive = None <-> existsb confirmed validated = false)
         /\ forall n, naive = Some n -> naive_effect sm_fit study = Ret n
     end.
Proof.
  revert updated naive_est naive.
  induction validated as [|v rest IH]; intros updated naive_est naive; simpl.
  - intros [= <- <-]. split; [constructor|].
    destruct naive_est; [reflexivity|]. split; [tauto | discriminate].
  - unfold confirmed at 2. destruct (is_measured v && is_statistically_significant v) eqn:Ec.
    + destruct (estimate_bias sm_fit v study default_bias_threshold)
        as [[res|e] after] eqn:Eb; [|discriminate].
      destruct (quantify_bias sm_fit rest study _) as [[tail final]|] eqn:El;
        [|discriminate].
      simpl. intros [= <- <-].
      destruct (IH _ _ _ El) as [Hall Hnaive]. split.
      * constructor; [|assumption].
        unfold confirmed. rewrite Ec.
        apply estimate_bias_after in Eb as [->|(magnitude & percentage & ->)];
          repeat split; discriminate.
      * destruct naive_est as [x|]; [exact Hnaive|].
        cbn [orb]. simpl in Hnaive. subst final. split; [split; discriminate|].
        intros n [= <-]. now apply estimate_bias_naive in Eb.
    + destruct (quantify_bias sm_fit rest study naive_est) as [[tail final]|] eqn:El;
        [|discriminate].
      simpl. intros [= <- <-].
      destruct (IH _ _ _ El) as [Hall Hnaive]. split.
      * constructor; [|assumption]. repeat split.
      * destruct naive_est; [exact Hnaive|]. exact Hnaive.
Qed.

End AuditFacts.

(** ** Ranking, suggestions and the report *)

Lemma rank_entry_confounder (v : ValidatedConfounder) (r : RankedConfounder) :
  rank_entry v = Some r ->
  confounder r = v /\ rejected v = false
  /\ In (priority r, ranked_severity r) rank_levels.
Proof.
  unfold rank_entry, rejected, rank_levels.
  destruct (is_measured v), (is_statistically_significant v); cbn [andb negb];
    try discriminate;
    repeat match goal with |- context [if ?c then _ else _] => destruct c end;
    intros [= <-]; simpl; tauto.
Qed.

Lemma in_rank_entries (l : list ValidatedConfounder) (r : RankedConfounder) :
  In r (omap rank_entry l) <-> In (confounder r) l /\ rank_entry (confounder r) = Some r.
Proof.
  induction l as [|v l IH]; simpl; [tauto|].
  destruct (rank_entry v) as [r'|] eqn:E.
  - simpl. rewrite IH. apply rank_entry_confounder in E as Hr. destruct Hr as [Hc _].
    split.
    + intros [<-|[Hin Hr]]; [rewrite Hc; auto | auto].
    + intros [[<-|Hin] Hr]; [left; congruence | auto].
  - rewrite IH. split; [tauto|]. intros [[<-|Hin] Hr]; [congruence | auto].
Qed.

Lemma in_rank_confounders (l : list ValidatedConfounder) (r : RankedConfounder) :
  In r (rank_confounders l) <-> In r (omap rank_entry l).
Proof.
  unfold rank_confounders. split; apply Permutation_in;
    [|symmetry]; apply sort_by_priority_perm.
Qed.

(** X9. Every entry of the ranking carries one of five pairs of priority
    and severity: 1 with Critical, 2 or 3 with Moderate, 4 or 5 with Minor;
    so an entry is Critical exactly when its priority is 1. *)
Theorem rank_confounders_levels (validated : list ValidatedConfounder)
    (r : RankedConfounder) :
  In r (rank_confounders validated) ->
  In (priority r, ranked_severity r) rank_levels
  /\ (ranked_severity r = "Critical" <-> priority r = 1%nat).
Proof.
  intros Hin. apply in_rank_confounders, in_rank_entries in Hin as [_ Hr].
  apply rank_entry_confounder in Hr as (_ & _ & Hlevel). split; [assumption|].
  unfold rank_levels in Hlevel. simpl in Hlevel.
  destruct Hlevel as [H|[H|[H|[H|[H|[]]]]]]; injection H as <- <-;
    split; (discriminate || reflexivity).
Qed.

Lemma validation_status_rejected (v : ValidatedConfounder) :
  validation_status v = "measured_rejected" <-> rejected v = true.
Proof.
  unfold validation_status, rejected.
  destruct (is_measured v), (is_statistically_significant v); simpl;
    split; (discriminate || reflexivity).
Qed.

(** X10. A confounder is ranked exactly when it is in the input and its
    validation status is not [measured_rejected]. *)
Theorem rank_confounders_members (validated : list ValidatedConfounder)
    (v : ValidatedConfounder) :
  In v (map confounder (rank_confounders validated))
  <-> In v validated /\ validation_status v <> "measured_rejected".
Proof.
  rewrite validation_status_rejected, in_map_iff. split.
  - intros (r & <- & Hin).
    apply in_rank_confounders, in_rank_entries in Hin as [Hin Hr].
    split; [assumption|]. apply rank_entry_confounder in Hr as (_ & Hrej & _).
    congruence.
  - intros [Hin Hrej]. apply not_true_is_false in Hrej.
    destruct (rank_entry_kept v Hrej) as (r & Hr & Hc).
    exists r. split; [assumption|].
    apply in_rank_confounders, in_rank_entries. rewrite Hc. auto.
Qed.

Lemma sort_by_priority_sorted_id (l : list RankedConfounder) :
  Sorted by_priority l -> sort_by_priority l = l.
Proof.
  induction 1 as [|x l Hs IH Hhd]; [reflexivity|].
  cbn [sort_by_priority fold_right]. fold (sort_by_priority l). rewrite IH.
  destruct Hhd as [|y l Hxy]; [reflexivity|]. simpl.
  unfold by_priority in Hxy. apply Nat.leb_le in Hxy. now rewrite Hxy.
Qed.

Lemma rank_entries_again (entries : list RankedConfounder) :
  Forall (fun r => rank_entry (confounder r) = Some r) entries ->
  omap rank_entry (map confounder entries) = entries.
Proof.
  induction 1 as [|r entries Hr _ IH]; [reflexivity|].
  cbn [map omap list_omap]. rewrite Hr. now rewrite IH.
Qed.

(** X11. Ranking is stable under re-ranking: the ranking of the
    confounders of a ranking, in its order, is that ranking.  (The report
    hands the ranked confounders on in this order.) *)
Theorem rank_confounders_again (validated : list ValidatedConfounder) :
  rank_confounders (map confounder (rank_confounders validated))
  = rank_confounders validated.
Proof.
  unfold rank_confounders at 1.
  rewrite rank_entries_again.
  - apply sort_by_priority_sorted_id. apply sort_by_priority_sorted.
  - apply List.Forall_forall. intros r Hin.
    now apply in_rank_confounders, in_rank_entries in Hin.
Qed.

(** X12. A report has critical confounders exactly when the first entry of
    its ranking is Critical: a critical confounder is never listed after one
    that is not. *)
Theorem has_critical_confounders_first (study : Study)
    (validated : list ValidatedConfounder) (naive adjusted : option float) :
  has_critical_confounders (generate_report study validated naive adjusted) = true
  <-> exists first others,
        ranked_confounders (generate_report study validated naive adjusted)
        = first :: others
        /\ ranked_severity first = "Critical".
Proof.
  unfold has_critical_confounders, generate_report. cbn [ranked_confounders].
  pose proof (sort_by_priority_sorted (omap rank_entry validated)) as Hsorted.
  fold (rank_confounders validated) in Hsorted.
  apply (Sorted_StronglySorted by_priority_trans) in Hsorted.
  assert (Hlevels : forall r, In r (rank_confounders validated) ->
            (1 <= priority r)%nat
            /\ (ranked_severity r = "Critical" <-> priority r = 1%nat)).
  { intros r Hin. apply in_rank_confounders, in_rank_entries in Hin as [_ Hr].
    apply rank_entry_confounder in Hr as (_ & _ & Hlevel).
    unfold rank_levels in Hlevel. simpl in Hlevel.
    destruct Hlevel as [H|[H|[H|[H|[H|[]]]]]]; injection H as <- <-;
      (split; [lia|]); split; (discriminate || reflexivity). }
  rewrite existsb_exists. split.
  - intros (r & Hin & Hcrit). apply String.eqb_eq in Hcrit.
    destruct (rank_confounders validated) as [|first others]; [destruct Hin|].
    exists first, others. split; [reflexivity|].
    destruct (Hlevels first (or_introl eq_refl)) as [Hone Hfirst].
    apply Hfirst. destruct Hin as [->|Hin].
    + now apply Hfirst.
    + apply StronglySorted_inv in Hsorted as [_ Hall].
      rewrite List.Forall_forall in Hall. specialize (Hall r Hin).
      unfold by_priority in Hall.
      destruct (Hlevels r (or_intror Hin)) as [_ Hr]. apply Hr in Hcrit. lia.
  - intros (first & others & -> & Hcrit). exists first.
    split; [now left | now apply String.eqb_eq].
Qed.

Lemma strategies_for_rejected (conf : ValidatedConfounder) :
  strategies_for conf = [] <-> rejected conf = true.
Proof.
  unfold strategies_for, rejected.
  destruct (is_measured conf), (is_statistically_significant conf); simpl;
    split; (discriminate || reflexivity).
Qed.

Lemma strategies_for_actions (conf : ValidatedConfounder) :
  rejected conf = false ->
  In (map action_type (strategies_for conf))
    [["control"]; ["control"; "stratify"]; ["sensitivity"; "study_design"]].
Proof.
  unfold strategies_for, rejected.
  destruct (is_measured conf), (is_statistically_significant conf); simpl;
    try discriminate; intros _; [destruct (substantial _); simpl|..]; tauto.
Qed.

Lemma suggest_fold_last (confounders : list ValidatedConfounder) (key : string) :
  fold_left suggest_step confounders ∅ !! key
  = strategies_for <$> last (List.filter (advised_as key) confounders).
Proof.
  induction confounders as [|conf l IH] using rev_ind; [reflexivity|].
  rewrite fold_left_app, List.filter_app. cbn [fold_left List.filter].
  unfold advised_as at 2.
  destruct (String.eqb_spec (name (candidate conf)) key) as [<-|Hne]; cbn [andb].
  - rewrite suggest_step_same.
    destruct (rejected conf) eqn:Er; cbn [negb].
    + rewrite (proj2 (strategies_for_rejected conf) Er), app_nil_r. exact IH.
    + rewrite last_snoc. cbn.
      destruct (strategies_for conf) eqn:Es; [|reflexivity].
      apply strategies_for_rejected in Es. congruence.
  - rewrite app_nil_r, suggest_step_other by assumption. exact IH.
Qed.

(** X13. The strategies that [suggest_corrections] files under a name are
    those of the last confounder of the list that carries this name and is
    not measured-but-rejected; there is no entry when there is no such
    confounder. *)
Theorem suggest_corrections_last_wins (confounders : list ValidatedConfounder)
    (key : string) :
  suggest_corrections confounders !! key
  = match last (List.filter (advised_as key) confounders) with
    | Some conf => Some (strategies_for conf)
    | None => None
    end.
Proof.
  unfold suggest_corrections. rewrite suggest_fold_last.
  now destruct (last _).
Qed.

Lemma last_filter_in {A : Type} (f : A -> bool) (l : list A) (x : A) :
  last (List.filter f l) = Some x -> In x l /\ f x = true.
Proof.
  intros H. apply last_Some in H as [l' H].
  apply filter_In. rewrite H. apply in_or_app. right. now left.
Qed.

(** X14. Every entry of [suggest_corrections] is filed under the name of a
    confounder of the list and holds either "control", or "control" and
    "stratify", or "sensitivity" and "study_design"; no entry is empty. *)
Theorem suggest_corrections_entries (confounders : list ValidatedConfounder)
    (key : string) (strats : list CorrectionStrategy) :
  suggest_corrections confounders !! key = Some strats ->
  (exists conf, In conf confounders /\ name (candidate conf) = key)
  /\ In (map action_type strats)
       [["control"]; ["control"; "stratify"]; ["sensitivity"; "study_design"]].
Proof.
  unfold suggest_corrections. rewrite suggest_fold_last.
  destruct (last _) as [conf|] eqn:El; [|discriminate].
  apply last_filter_in in El as [Hin Hadv].
  unfold advised_as in Hadv. apply andb_true_iff in Hadv as [Hname Hrej].
  apply String.eqb_eq in Hname. apply negb_true_iff in Hrej.
  intros [= <-]. split; [eauto|]. now apply strategies_for_actions.
Qed.

(** X15. In a report every ranked confounder has recommendations: a
    non-empty strategy list is filed under its name; and every name with
    recommendations is the name of a ranked confounder. *)
Theorem generate_report_recommendations (study : Study)
    (validated : list ValidatedConfounder) (naive adjusted : option float) :
  let report := generate_report study validated naive adjusted in
  (forall rc,
      In rc (ranked_confounders report) ->
      exists strats,
        recommendations report !! name (candidate (confounder rc)) = Some strats
        /\ strats <> [])
  /\ (forall key strats,
         recommendations report !! key = Some strats ->
         exists rc,
           In rc (ranked_confounders report)
           /\ name (candidate (confounder rc)) = key).
Proof.
  unfold generate_report. cbn [ranked_confounders recommendations].
  unfold suggest_corrections. split.
  - intros rc Hin. rewrite suggest_fold_last.
    set (key := name (candidate (confounder rc))).
    assert (Hadv : advised_as key (confounder rc) = true).
    { unfold advised_as, key. rewrite String.eqb_refl.
      apply in_rank_confounders, in_rank_entries in Hin as [_ Hr].
      apply rank_entry_confounder in Hr as (_ & -> & _). reflexivity. }
    destruct (last _) as [conf|] eqn:El.
    + apply last_filter_in in El as [_ Hconf].
      exists (strategies_for conf). split; [reflexivity|].
      intros Hnil. apply strategies_for_rejected in Hnil.
      unfold advised_as in Hconf. rewrite Hnil, andb_false_r in Hconf. discriminate.
    + apply last_None in El.
      assert (Hmem : In (confounder rc)
                       (List.filter (advised_as key)
                          (map confounder (rank_confounders validated)))).
      { apply filter_In. split; [now apply in_map | assumption]. }
      rewrite El in Hmem. destruct Hmem.
  - intros key strats. rewrite suggest_fold_last.
    destruct (last _) as [conf|] eqn:El; [|discriminate].
    apply last_filter_in in El as [Hin Hadv]. intros _.
    apply in_map_iff in Hin as (rc & <- & Hin). exists rc. split; [assumption|].
    unfold advised_as in Hadv. apply andb_true_iff in Hadv as [Hname _].
    now apply String.eqb_eq.
Qed.

(** ** Loader *)

Lemma has_column_spec (df : DataFrame) (c : string) :
  has_column df c = true <-> In c (columns df).
Proof.
  unfold has_column. rewrite existsb_exists. split.
  - intros (x & Hin & Heq). apply String.eqb_eq in Heq. now subst.
  - intros Hin. exists c. split; [assumption | apply String.eqb_refl].
Qed.

Section LoaderFacts.

Variable str_lower : string -> string.

Lemma covariates_of_spec (df : DataFrame) (treatment outcome c : string) :
  In c (covariates_of str_lower df treatment outcome)
  <-> In c (columns df) /\ ~ In (str_lower c) (exclude treatment outcome).
Proof.
  unfold covariates_of. rewrite filter_In, negb_true_iff.
  rewrite <- not_true_iff_false, existsb_exists. split.
  - intros [Hin Hno]. split; [assumption|]. intros Hex. apply Hno.
    exists (str_lower c). split; [assumption | apply String.eqb_refl].
  - intros [Hin Hno]. split; [assumption|]. intros (x & Hx & Heq).
    apply String.eqb_eq in Heq. now subst.
Qed.

Lemma load_study_inv (df : DataFrame) (treatment outcome question : string)
    (context : option string) (study : Study) :
  load_study str_lower df treatment outcome question context = Ret study ->
  In treatment (columns df) /\ In outcome (columns df)
  /\ study = mkStudy df treatment outcome (covariates_of str_lower df treatment outcome)
               question context.
Proof.
  unfold load_study.
  destruct (has_column df treatment) eqn:Et; [|discriminate].
  destruct (has_column df outcome) eqn:Ey; [|discriminate].
  apply has_column_spec in Et, Ey. simpl. now intros [= <-].
Qed.

(** X16. A study loaded from a frame with distinct labels, under treatment
    and outcome names that [str.lower] leaves as they are and that differ,
    is well formed: the covariates hold neither the treatment nor the
    outcome, and the validator returns on it for every list of
    candidates. *)
Theorem load_study_well_formed (df : DataFrame) (treatment outcome question : string)
    (context : option string) (study : Study) :
  load_study str_lower df treatment outcome question context = Ret study ->
  NoDup (columns df) ->
  str_lower treatment = treatment -> str_lower outcome = outcome ->
  treatment <> outcome ->
  well_formed study
  /\ forall sm_fit candidates alpha,
       exists validated,
         validate_candidates sm_fit str_lower candidates study alpha = Ret validated.
Proof.
  intros Hload Hnd Hlt Hly Hne.
  apply load_study_inv in Hload as (Ht & Hy & ->).
  assert (Hwf : well_formed
                  (mkStudy df treatment outcome
                     (covariates_of str_lower df treatment outcome) question context)).
  { unfold well_formed. cbn.
    split; [assumption|]. split; [assumption|]. split; [assumption|].
    split; [|split; [assumption|split]].
    - apply List.Forall_forall. intros c Hc. now apply covariates_of_spec in Hc.
    - intros Hc. apply covariates_of_spec in Hc as [_ Hno]. apply Hno.
      rewrite Hlt. unfold exclude. simpl. tauto.
    - intros Hc. apply covariates_of_spec in Hc as [_ Hno]. apply Hno.
      rewrite Hly. unfold exclude. simpl. tauto. }
  split; [exact Hwf|]. intros sm_fit candidates alpha.
  now apply validate_candidates_returns.
Qed.

(** X17. The covariates are filtered by lower-cased label against the
    treatment name as given: a treatment whose lower-cased name is not the
    name itself (it has an upper-case letter), and is neither reserved nor
    the outcome, stays among the covariates of the loaded study, which is
    then not well formed. *)
Theorem load_study_keeps_capitalised_treatment (df : DataFrame)
    (treatment outcome question : string) (context : option string) (study : Study) :
  load_study str_lower df treatment outcome question context = Ret study ->
  ~ In (str_lower treatment)
      ["id"; "index"; "timestamp"; "date"; treatment; outcome] ->
  In treatment (measured_covariates study) /\ ~ well_formed study.
Proof.
  intros Hload Hfree.
  apply load_study_inv in Hload as (Ht & Hy & ->). cbn.
  assert (Hin : In treatment (covariates_of str_lower df treatment outcome)).
  { apply covariates_of_spec. split; assumption. }
  split; [assumption|].
  intros (_ & _ & _ & _ & _ & Hno & _). now apply Hno.
Qed.

End LoaderFacts.

(** X18. On a study whose frame has distinct labels [Study.select] never
    raises: it returns the requested columns that the frame has, in the
    order requested, over all the rows. *)
Theorem Study_select_returns (study : Study) (cols : list string) :
  NoDup (columns (data study)) ->
  exists selected,
    Study_select study cols = Ret selected
    /\ columns selected = List.filter (has_column (data study)) cols
    /\ len selected = n_samples study.
Proof.
  intros _. unfold Study_select, n_samples.
  destruct (select_present (data study) (List.filter (has_column (data study)) cols))
    as (selected & Hsel & Hcols).
  - apply List.Forall_forall. intros c Hc. apply filter_In in Hc as [_ Hc].
    now apply has_column_spec.
  - exists selected. split; [assumption|]. split; [assumption|].
    now apply select_len in Hsel.
Qed.

(** ** The validator on a treatment left among the covariates *)




Section RepeatedTarget.

Variable sm_fit :
  model_class -> DataFrame -> string -> list string -> may_raise RegressionResults.
Variable str_lower : string -> string.





End RepeatedTarget.

(** ** Data-quality check *)

Section DataQualityFacts.

Variable format_percent : float -> string.
Variable sm_fit :
  model_class -> DataFrame -> string -> list string -> may_raise RegressionResults.
Variable str_lower : string -> string.

Lemma column_inv (df : DataFrame) (label : string) (values : list float) :
  column df label = Ret values ->
  exists i,
    get_loc label (columns df) = Some i
    /\ values = map (fun row => cell row i) (rows df).
Proof.
  unfold column. destruct (get_loc label (columns df)) as [i|]; [|discriminate].
  intros [= <-]. eauto.
Qed.

Lemma app_nil_iff {A : Type} (l1 l2 : list A) : l1 ++ l2 = [] <-> l1 = [] /\ l2 = [].
Proof. split; [apply app_eq_nil | intros [-> ->]; reflexivity]. Qed.

(** X20. When [validate_study] returns, the study is valid exactly when it
    has at least [min_samples] rows, no missing value in the treatment and
    outcome columns, and at least two distinct values in each; warnings
    never make a study invalid. *)
Theorem validate_study_valid (study : Study) (min_samples : Z)
    (result : ValidationResult) :
  validate_study format_percent study min_samples = Ret result ->
  exists t_values y_values,
    column (data study) (treatment study) = Ret t_values
    /\ column (data study) (outcome study) = Ret y_values
    /\ (is_valid result = true <-> errors result = [])
    /\ (is_valid result = true
        <-> (min_samples <= Z.of_nat (n_samples study))%Z
            /\ any_missing t_values = false /\ any_missing y_values = false
            /\ (2 <= nunique t_values)%nat /\ (2 <= nunique y_values)%nat).
Proof.
  unfold validate_study, n_samples.
  destruct (column (data study) (treatment study)) as [t_values|]; [|discriminate].
  destruct (column (data study) (outcome study)) as [y_values|]; [|discriminate].
  cbn [bind].
  destruct (covariate_warnings format_percent (data study) (measured_covariates study))
    as [cov_warnings|]; [|discriminate].
  cbn [bind]. intros [= <-]. cbn [is_valid errors].
  exists t_values, y_values. split; [reflexivity|]. split; [reflexivity|].
  rewrite Nat.eqb_eq, length_zero_iff_nil. split; [reflexivity|].
  rewrite !app_nil_iff.
  destruct (Z.ltb_spec (Z.of_nat (len (data study))) min_samples) as [Hlt|Hge];
    destruct (any_missing t_values), (any_missing y_values); cbn [negb andb];
    destruct (Nat.ltb_spec (nunique t_values) 2), (Nat.ltb_spec (nunique y_values) 2);
    split; intros Hvalid; repeat split; try tauto; try discriminate; try lia;
    try (exfalso; intuition (discriminate || lia)).
Qed.

Lemma validate_study_accepts (study : Study) (min_samples : Z)
    (result : ValidationResult) :
  validate_study format_percent study min_samples = Ret result ->
  is_valid result = true ->
  exists t_values y_values,
    column (data study) (treatment study) = Ret t_values
    /\ column (data study) (outcome study) = Ret y_values
    /\ (min_samples <= Z.of_nat (n_samples study))%Z
    /\ any_missing t_values = false /\ any_missing y_values = false.
Proof.
  unfold validate_study, n_samples.
  destruct (column (data study) (treatment study)) as [t_values|]; [|discriminate].
  destruct (column (data study) (outcome study)) as [y_values|]; [|discriminate].
  cbn [bind].
  destruct (covariate_warnings format_percent (data study) (measured_covariates study))
    as [cov_warnings|]; [|discriminate].
  cbn [bind]. intros [= <-]. cbn [is_valid errors].
  rewrite Nat.eqb_eq, length_zero_iff_nil, !app_nil_iff.
  intros (Hsize & Htm & Hym & _).
  exists t_values, y_values. split; [reflexivity|]. split; [reflexivity|].
  destruct (Z.ltb_spec (Z.of_nat (len (data study))) min_samples); [discriminate|].
  destruct (any_missing t_values); [discriminate|].
  destruct (any_missing y_values); [discriminate|]. auto.
Qed.

Lemma complete_pair (row : list float) (i j : nat) :
  is_nan (cell row i) = false -> is_nan (cell row j) = false ->
  complete (take_cells [i; j] row) = true.
Proof. intros Hi Hj. unfold complete, take_cells. simpl. now rewrite Hi, Hj. Qed.

Lemma filter_all {A : Type} (f : A -> bool) (l : list A) :
  Forall (fun x => f x = true) l -> List.filter f l = l.
Proof. induction 1 as [|x l Hx _ IH]; simpl; [reflexivity|]. now rewrite Hx, IH. Qed.

Lemma any_missing_cells (df : DataFrame) (i : nat) :
  any_missing (map (fun row => cell row i) (rows df)) = false ->
  Forall (fun row => is_nan (cell row i) = false) (rows df).
Proof.
  unfold any_missing. intros H. apply List.Forall_forall. intros row Hin.
  apply not_true_is_false. intros Hnan.
  assert (Hex : existsb is_nan (map (fun row => cell row i) (rows df)) = true).
  { apply existsb_exists. exists (cell row i). split; [|assumption].
    apply in_map_iff. eauto. }
  congruence.
Qed.

(** X21. On a study that [validate_study] accepts with [min_samples] at
    least 5, the naive regression of [estimate_bias] never fails for lack of
    data: no row is dropped and the model is fit on the whole frame. *)
Theorem validate_study_enough_rows (study : Study) (min_samples : Z)
    (result : ValidationResult) :
  validate_study format_percent study min_samples = Ret result ->
  is_valid result = true ->
  (5 <= min_samples)%Z ->
  _estimate_effect sm_fit (data study) (treatment study) (outcome study) []
  = (do fitted <- sm_fit OLS (data study) (outcome study) [treatment study];
     at_label (params fitted) (treatment study)).
Proof.
  intros Hv Hvalid Hmin.
  destruct (validate_study_accepts study min_samples result Hv Hvalid)
    as (t_values & y_values & Et & Ey & Hrows & Ht & Hy).
  apply column_inv in Et as (i & Hi & ->). apply column_inv in Ey as (j & Hj & ->).
  apply any_missing_cells in Ht, Hy.
  unfold _estimate_effect, dropna_subset. cbn [locate]. rewrite Hi, Hj. cbn [bind].
  rewrite filter_all.
  - unfold len at 1. cbn [rows length].
    replace (_ <? _)%nat with false.
    + now destruct (data study).
    + symmetry. apply Nat.ltb_ge. unfold n_samples, len in Hrows. lia.
  - rewrite List.Forall_forall in Ht, Hy. apply List.Forall_forall.
    intros row Hin. apply complete_pair; auto.
Qed.

End DataQualityFacts.

(** ** Decoding the model's answer *)

Lemma lower_ascii_idempotent (c : ascii) : lower_ascii (lower_ascii c) = lower_ascii c.
Proof. destruct c as [[] [] [] [] [] [] [] []]; vm_compute; reflexivity. Qed.

Lemma lower_ascii_space (c : ascii) :
  Ascii.eqb (lower_ascii c) " " = Ascii.eqb c " ".
Proof. destruct c as [[] [] [] [] [] [] [] []]; vm_compute; reflexivity. Qed.

Lemma lower_idempotent (s : string) : lower (lower s) = lower s.
Proof.
  induction s as [|c s IH]; simpl; [reflexivity|].
  now rewrite lower_ascii_idempotent, IH.
Qed.

Lemma underscores_canonical (s : string) : canonical (underscores (lower s)).
Proof.
  unfold canonical. induction s as [|c s [IHl IHs]]; simpl; [tauto|].
  destruct (Ascii.eqb_spec (lower_ascii c) " ") as [Heq|Hne]; split.
  - simpl. now rewrite IHl.
  - simpl. intros [H|H]; [discriminate | contradiction].
  - simpl. now rewrite lower_ascii_idempotent, IHl.
  - simpl. intros [H|H]; [congruence | contradiction].
Qed.

Section ParserFacts.

Variable json_loads : string -> option json.
Variable fence_body : string -> option string.
Variable repr : json -> string.

Lemma candidate_of_canonical (item : json) (cand : ConfounderCandidate) :
  candidate_of repr item = Ret cand ->
  canonical (name cand) /\ lower (severity cand) = severity cand.
Proof.
  unfold candidate_of.
  repeat match goal with
         | |- context [json_get ?v ?k ?d] =>
             destruct (json_get v k d); cbn [bind]; [|discriminate]
         end.
  intros [= <-]. cbn [name severity].
  split; [apply underscores_canonical | apply lower_idempotent].
Qed.

Lemma collect_candidates_spec (items : list json) :
  Forall
    (fun cand =>
       is_plausible cand = true /\ canonical (name cand)
       /\ lower (severity cand) = severity cand)
    (collect_candidates repr items)
  /\ (length (collect_candidates repr items) <= length items)%nat.
Proof.
  induction items as [|item rest [IHall IHlen]]; simpl; [split; [constructor | lia]|].
  destruct (candidate_of repr item) as [cand|] eqn:E; [|split; [assumption | lia]].
  destruct (is_plausible cand) eqn:Ep; [|split; [assumption | lia]].
  split; [|simpl; lia].
  constructor; [|assumption]. split; [assumption|].
  now apply candidate_of_canonical in E.
Qed.

Lemma candidates_of_json_inv (data : json) (cands : list ConfounderCandidate) :
  candidates_of_json repr data = Ret cands ->
  exists members,
    data = JObject members
    /\ match lookup_member members "candidates" with
       | None => cands = []
       | Some (JArray items) => cands = collect_candidates repr items
       | Some _ => False
       end.
Proof.
  unfold candidates_of_json.
  destruct data as [| | | | |items|members]; try discriminate.
  cbn [json_get bind]. intros H. exists members. split; [reflexivity|].
  destruct (lookup_member members "candidates") as [[| | | | |items|inner]|];
    cbn [default] in H; try discriminate; now injection H as <-.
Qed.

(** X22. Every candidate that [parse_candidates] returns is plausible (its
    name and both mechanisms are not empty), has a name without upper-case
    letters and without spaces, and a lower-case severity. *)
Theorem parse_candidates_normalised (llm_response : string)
    (cands : list ConfounderCandidate) :
  parse_candidates json_loads fence_body repr llm_response = Ret cands ->
  Forall
    (fun cand =>
       (name cand <> "" /\ causes_treatment_because cand <> ""
        /\ causes_outcome_because cand <> "")
       /\ canonical (name cand)
       /\ lower (severity cand) = severity cand)
    cands.
Proof.
  unfold parse_candidates. destruct (json_loads _) as [data|]; [|discriminate].
  intros H. apply candidates_of_json_inv in H as (members & _ & H).
  assert (Hall : Forall
                   (fun cand =>
                      is_plausible cand = true /\ canonical (name cand)
                      /\ lower (severity cand) = severity cand) cands).
  { destruct (lookup_member members "candidates") as [[| | | | |items|inner]|];
      try contradiction; subst; [apply collect_candidates_spec | constructor]. }
  revert Hall. apply List.Forall_impl. intros cand (Hp & Hc & Hs).
  split; [|auto]. unfold is_plausible in Hp.
  apply andb_true_iff in Hp as [Hp Ho]. apply andb_true_iff in Hp as [Hn Ht].
  apply negb_true_iff, String.eqb_neq in Hn, Ht, Ho. auto.
Qed.

(** X23. The failures of [parse_candidates], by the value decoded from the
    cleaned answer: text that does not decode raises the malformed-JSON
    error; a value that is not an object raises because it has no [get] --
    a bare array included, although the code has a branch for it; an object
    whose "candidates" is not a list raises the missing-array error; an
    object without "candidates" gives no candidate. *)
Theorem parse_candidates_failures (llm_response : string) :
  let text := clean_response fence_body llm_response in
  let parsed := parse_candidates json_loads fence_body repr llm_response in
  (json_loads text = None ->
   parsed = Raise (ValueError "LLM returned malformed JSON."))
  /\ (forall data,
         json_loads text = Some data ->
         (forall members, data <> JObject members) ->
         parsed
         = Raise (AttributeError
                    ("'" +:+ type_name data +:+ "' object has no attribute 'get'")))
  /\ (forall items,
         json_loads text = Some (JArray items) ->
         parsed = Raise (AttributeError "'list' object has no attribute 'get'"))
  /\ (forall members value,
         json_loads text = Some (JObject members) ->
         lookup_member members "candidates" = Some value ->
         (forall items, value <> JArray items) ->
         parsed = Raise (ValueError "JSON does not contain a 'candidates' array."))
  /\ (forall members,
         json_loads text = Some (JObject members) ->
         lookup_member members "candidates" = None ->
         parsed = Ret []).
Proof.
  intros text parsed. subst text parsed. unfold parse_candidates.
  split; [intros ->; reflexivity|]. split; [|split; [|split]].
  - intros data -> Hnot. destruct data; try reflexivity.
    now destruct (Hnot members).
  - intros items ->. reflexivity.
  - intros members value -> Hv Hnot. unfold candidates_of_json.
    cbn [json_get bind]. rewrite Hv. cbn [default].
    destruct value; try reflexivity. now destruct (Hnot items).
  - intros members -> Hv. unfold candidates_of_json.
    cbn [json_get bind]. now rewrite Hv.
Qed.

End ParserFacts.

(** ** Settings and the retry loop *)

Lemma contains_slash (base : string) : contains ("ollama/" +:+ base) "/" = true.
Proof. apply contains_spec. exists "ollama", base. reflexivity. Qed.

Lemma default_model_nonempty (p : LLMProvider) :
  get_or _DEFAULT_MODELS p "llama3.1" <> "".
Proof. destruct p; vm_compute; discriminate. Qed.

(** X24. The resolved model name is never empty; for the provider Ollama
    it always contains a slash (the prefix "ollama/" is added when the name
    has none), and for every other provider it is the configured model, or
    the provider's default when none is configured.  Resolving is stable:
    settings that carry a resolved name as their model resolve to it. *)
Theorem resolved_model_spec (settings : ConfounderSettings) :
  resolved_model settings <> ""
  /\ (llm_provider settings = OLLAMA ->
      contains (resolved_model settings) "/" = true)
  /\ (llm_provider settings <> OLLAMA ->
      resolved_model settings
      = if String.eqb (llm_model settings) "" then
          get_or _DEFAULT_MODELS (llm_provider settings) "llama3.1"
        else llm_model settings)
  /\ resolved_model (with_model settings (resolved_model settings))
     = resolved_model settings.
Proof.
  assert (Hne : resolved_model settings <> "").
  { unfold resolved_model.
    destruct (llm_model settings) eqn:Em.
    - destruct (_ && _); [discriminate | apply default_model_nonempty].
    - destruct (_ && _); discriminate. }
  assert (Hslash : provider_eqb (llm_provider settings) OLLAMA = true ->
                   contains (resolved_model settings) "/" = true).
  { intros Hp. unfold resolved_model. rewrite Hp. cbn [andb].
    match goal with
    | |- context [negb (contains ?b "/")] => destruct (contains b "/") eqn:Ec
    end; cbn [negb]; [assumption | apply contains_slash]. }
  split; [assumption|]. split; [|split].
  - intros Hp. apply Hslash. now rewrite Hp.
  - intros Hp. unfold resolved_model.
    replace (provider_eqb (llm_provider settings) OLLAMA) with false
      by (destruct (llm_provider settings); (reflexivity || contradiction)).
    cbn [andb]. now destruct (llm_model settings).
  - revert Hne Hslash. generalize (resolved_model settings) as r.
    intros r Hne Hslash. unfold resolved_model, with_model. cbn.
    destruct r as [|c r]; [contradiction|].
    destruct (provider_eqb (llm_provider settings) OLLAMA); [|reflexivity].
    now rewrite Hslash.
Qed.

Lemma seq_powers_sum (n : nat) :
  list_sum (map (Nat.pow 2) (seq 0 n)) = (2 ^ n - 1)%nat.
Proof.
  induction n as [|n IH]; [reflexivity|].
  rewrite seq_S, map_app, list_sum_app, IH. simpl.
  assert (1 <= 2 ^ n)%nat by (apply Nat.neq_0_lt_0, Nat.pow_nonzero; discriminate).
  lia.
Qed.

Section AdapterFacts.

Variable litellm_completion : list message -> nat -> may_raise (option string).

Lemma attempts_success (messages : list message) (max_retries : nat)
    (answer : option string) (k a r : nat) :
  (forall j, (a <= j < a + k)%nat -> fails_at litellm_completion messages j) ->
  litellm_completion messages (a + k) = Ret answer ->
  (k < r)%nat -> (a + r = max_retries + 1)%nat -> (1 <= a)%nat ->
  attempts litellm_completion messages max_retries a r
  = (Some (default "" answer), map (Nat.pow 2) (seq (a - 1) k)).
Proof.
  revert a r. induction k as [|k IH]; intros a r Hfail Hok Hk Hsum Ha.
  - destruct r as [|r]; [lia|]. cbn [attempts].
    rewrite Nat.add_0_r in Hok. now rewrite Hok.
  - destruct r as [|r]; [lia|]. cbn [attempts].
    destruct (Hfail a) as [e ->]; [lia|].
    rewrite (IH (S a) r); [| |now rewrite Nat.add_succ_r in Hok|lia..].
    + cbn [fst snd]. replace (a <? max_retries)%nat with true
        by (symmetry; apply Nat.ltb_lt; lia).
      cbn [seq map app]. replace (S a - 1)%nat with (S (a - 1)) by lia.
      reflexivity.
    + intros j Hj. apply Hfail. lia.
Qed.

Lemma attempts_failure (messages : list message) (max_retries a r : nat) :
  (forall j, (a <= j < a + r)%nat -> fails_at litellm_completion messages j) ->
  (a + r = max_retries + 1)%nat -> (1 <= a)%nat ->
  attempts litellm_completion messages max_retries a r
  = (None, map (Nat.pow 2) (seq (a - 1) (r - 1))).
Proof.
  revert a. induction r as [|r IH]; intros a Hfail Hsum Ha; [reflexivity|].
  cbn [attempts]. destruct (Hfail a) as [e ->]; [lia|].
  rewrite (IH (S a)); [|intros j Hj; apply Hfail; lia|lia..].
  cbn [fst snd]. destruct r as [|r].
  - replace (a <? max_retries)%nat with false
      by (symmetry; apply Nat.ltb_ge; lia).
    reflexivity.
  - replace (a <? max_retries)%nat with true
      by (symmetry; apply Nat.ltb_lt; lia).
    replace (S a - 1)%nat with (S (a - 1)) by lia.
    replace (S (S r) - 1)%nat with (S (S r - 1)) by lia.
    reflexivity.
Qed.

(** X25. When the first [k - 1] calls of the provider fail and the [k]-th
    succeeds, within the retry budget, [LLMAdapter.complete] returns the
    content of that answer (the empty text when it has none) after having
    slept 1, 2, 4, ... seconds, once after each failure. *)
Theorem complete_first_success (settings : ConfounderSettings) (prompt : string)
    (system : option string) (k : nat) (answer : option string) :
  (1 <= k <= llm_max_retries settings)%nat ->
  (forall j, (1 <= j < k)%nat -> fails_at litellm_completion (messages_for prompt system) j) ->
  litellm_completion (messages_for prompt system) k = Ret answer ->
  LLMAdapter_complete litellm_completion settings prompt system
  = (Completed (default "" answer), backoff k).
Proof.
  intros Hk Hfail Hok. unfold LLMAdapter_complete, backoff.
  rewrite (attempts_success _ _ answer (k - 1) 1 (llm_max_retries settings));
    [reflexivity| | |lia..].
  - intros j Hj. apply Hfail. lia.
  - now replace (1 + (k - 1))%nat with k by lia.
Qed.

(** X26. When every call of the provider fails, [LLMAdapter.complete]
    raises the provider error after exactly [llm_max_retries] attempts,
    having slept after each failure but the last: 1, 2, 4, ... seconds,
    [2 ^ (llm_max_retries - 1) - 1] seconds in all. *)
Theorem complete_all_fail (settings : ConfounderSettings) (prompt : string)
    (system : option string) :
  (forall j, (1 <= j <= llm_max_retries settings)%nat ->
             fails_at litellm_completion (messages_for prompt system) j) ->
  exists msg sleeps,
    LLMAdapter_complete litellm_completion settings prompt system
    = (ConfounderProviderError msg, sleeps)
    /\ sleeps = backoff (llm_max_retries settings)
    /\ list_sum sleeps = (2 ^ (llm_max_retries settings - 1) - 1)%nat.
Proof.
  intros Hfail. unfold LLMAdapter_complete, backoff.
  rewrite (attempts_failure _ _ 1 (llm_max_retries settings));
    [|intros j Hj; apply Hfail; lia|lia..].
  cbn [fst snd]. do 2 eexists. split; [reflexivity|]. split; [reflexivity|].
  apply seq_powers_sum.
Qed.

End AdapterFacts.

(** * The further properties at the sample inputs *)

Lemma validate_candidates_order_witness :
  exists validated,
    validate_candidates sample_fit lower sample_candidates scenario_1_study default_alpha
    = Ret validated
    /\ map candidate validated = sample_candidates.
Proof.
  destruct (validate_candidates sample_fit lower sample_candidates scenario_1_study
              default_alpha) as [validated|e] eqn:E;
    [|vm_compute in E; discriminate E].
  exists validated. split; [reflexivity|].
  rewrite (validate_candidates_order sample_fit lower _ _ _ _ E). reflexivity.
Defined.

Lemma validate_candidates_records_witness :
  exists validated,
    validate_candidates sample_fit lower sample_candidates scenario_1_study default_alpha
    = Ret validated
    /\ Forall (fun v => bias_magnitude v = None /\ bias_percentage v = None) validated.
Proof.
  destruct (validate_candidates sample_fit lower sample_candidates scenario_1_study
              default_alpha) as [validated|e] eqn:E;
    [|vm_compute in E; discriminate E].
  exists validated. split; [reflexivity|].
  pose proof (validate_candidates_records sample_fit lower _ _ _ _ E) as Hall.
  revert Hall. apply List.Forall_impl. intros v (Hm & Hp & _). split; assumption.
Defined.

Lemma validate_candidates_small_study_witness :
  (len (data tiny_study) < 7)%nat
  /\ exists validated,
       validate_candidates sample_fit lower sample_candidates tiny_study default_alpha
       = Ret validated
       /\ Forall (fun v => is_statistically_significant v = false) validated.
Proof.
  assert (Hsmall : (len (data tiny_study) < 7)%nat) by (vm_compute; lia).
  split; [exact Hsmall|].
  destruct (validate_candidates sample_fit lower sample_candidates tiny_study
              default_alpha) as [validated|e] eqn:E;
    [|vm_compute in E; discriminate E].
  exists validated. split; [reflexivity|].
  pose proof (validate_candidates_small_study sample_fit lower _ _ _ _ Hsmall E) as Hall.
  revert Hall. apply List.Forall_impl. intros v [Hs _]. exact Hs.
Defined.

Lemma estimate_bias_preserves_witness :
  exists outcome after,
    estimate_bias sample_fit age_confounder scenario_1_study default_bias_threshold
    = (outcome, after)
    /\ candidate after = candidate age_confounder
    /\ is_statistically_significant after = true.
Proof.
  destruct (estimate_bias sample_fit age_confounder scenario_1_study
              default_bias_threshold) as [outcome after] eqn:E.
  exists outcome, after. split; [reflexivity|].
  destruct (estimate_bias_preserves sample_fit _ _ _ _ _ E)
    as (Hc & _ & _ & _ & _ & Hs).
  split; [exact Hc | exact Hs].
Defined.

Lemma estimate_bias_again_witness :
  exists result after,
    estimate_bias sample_fit age_confounder scenario_1_study default_bias_threshold
    = (Ret result, after)
    /\ estimate_bias sample_fit after scenario_1_study default_bias_threshold
       = (Ret result, after).
Proof.
  destruct (estimate_bias sample_fit age_confounder scenario_1_study
              default_bias_threshold) as [[result|e] after] eqn:E;
    [|vm_compute in E; discriminate E].
  exists result, after. split; [reflexivity|].
  exact (estimate_bias_again sample_fit _ _ _ _ _ E).
Defined.

Lemma estimate_bias_small_study_witness :
  (len (data tiny_study) < 6)%nat
  /\ exists result after,
       estimate_bias sample_fit age_confounder tiny_study default_bias_threshold
       = (Ret result, after)
       /\ after = age_confounder.
Proof.
  assert (Hsmall : (len (data tiny_study) < 6)%nat) by (vm_compute; lia).
  split; [exact Hsmall|].
  destruct (estimate_bias sample_fit age_confounder tiny_study
              default_bias_threshold) as [[result|e] after] eqn:E;
    [|vm_compute in E; discriminate E].
  exists result, after. split; [reflexivity|].
  exact (proj2 (estimate_bias_small_study sample_fit _ _ _ _ _ Hsmall E)).
Defined.

Lemma audit_witness :
  well_formed scenario_1_study
  /\ exists report, audit sample_fit lower sample_candidates scenario_1_study = Ret report.
Proof.
  split; [exact scenario_1_study_well_formed|].
  destruct (audit_fails_only_on_continuous_treatment sample_fit lower sample_candidates
              scenario_1_study scenario_1_study_well_formed) as [_ Hbinary].
  apply (Hbinary [0; 0; 0; 1; 1; 1; 1; 0; 0; 1]); vm_compute; reflexivity.
Defined.

Lemma quantify_bias_result_witness :
  exists updated naive,
    quantify_bias sample_fit [age_confounder; genetics] scenario_1_study None
    = Ret (updated, naive)
    /\ naive_effect sample_fit scenario_1_study = Ret 7.5.
Proof.
  destruct (quantify_bias sample_fit [age_confounder; genetics] scenario_1_study None)
    as [[updated naive]|e] eqn:E; [|vm_compute in E; discriminate E].
  exists updated, naive. split; [reflexivity|].
  destruct (quantify_bias_result sample_fit _ _ _ _ _ E) as (_ & _ & Hsome).
  apply Hsome. vm_compute in E. injection E as _ <-. reflexivity.
Defined.

Lemma rank_confounders_levels_witness :
  In (mkRanked critical_c1 "Critical" 1) (rank_confounders ranking_sample)
  /\ In (1%nat, "Critical") rank_levels.
Proof.
  assert (Hin : In (mkRanked critical_c1 "Critical" 1)
                  (rank_confounders ranking_sample))
    by (vm_compute; left; reflexivity).
  split; [exact Hin|].
  exact (proj1 (rank_confounders_levels ranking_sample _ Hin)).
Defined.

Lemma suggest_corrections_entries_witness :
  exists strats,
    suggest_corrections ranking_sample !! "c3" = Some strats
    /\ exists conf, In conf ranking_sample /\ name (candidate conf) = "c3".
Proof.
  destruct (suggest_corrections ranking_sample !! "c3") as [strats|] eqn:E;
    [|vm_compute in E; discriminate E].
  exists strats. split; [reflexivity|].
  exact (proj1 (suggest_corrections_entries ranking_sample "c3" strats E)).
Defined.

Lemma load_study_well_formed_witness :
  exists study,
    load_study lower (data scenario_1_study) "received_tutoring" "test_score"
      "Does tutoring raise test scores?" None = Ret study
    /\ well_formed study.
Proof.
  destruct (load_study lower (data scenario_1_study) "received_tutoring" "test_score"
              "Does tutoring raise test scores?" None) as [study|e] eqn:E;
    [|vm_compute in E; discriminate E].
  exists study. split; [reflexivity|].
  apply (load_study_well_formed lower _ _ _ _ _ _ E).
  - apply (bool_decide_unpack _). vm_compute. exact I.
  - reflexivity.
  - reflexivity.
  - discriminate.
Defined.

Lemma load_study_keeps_capitalised_treatment_witness :
  exists study,
    load_study lower capital_frame "Tutoring" "test_score"
      "Does tutoring raise test scores?" None = Ret study
    /\ In "Tutoring" (measured_covariates study).
Proof.
  destruct (load_study lower capital_frame "Tutoring" "test_score"
              "Does tutoring raise test scores?" None) as [study|e] eqn:E;
    [|vm_compute in E; discriminate E].
  exists study. split; [reflexivity|].
  apply (load_study_keeps_capitalised_treatment lower _ _ _ _ _ _ E).
  vm_compute. intros [H|[H|[H|[H|[H|[H|[]]]]]]]; discriminate H.
Defined.


Lemma Study_select_returns_witness :
  NoDup (columns (data scenario_1_study))
  /\ exists selected,
       Study_select scenario_1_study ["test_score"; "motivation"; "student_age"]
       = Ret selected
       /\ columns selected = ["test_score"; "student_age"].
Proof.
  assert (Hnd : NoDup (columns (data scenario_1_study)))
    by (apply (bool_decide_unpack _); vm_compute; exact I).
  split; [exact Hnd|].
  destruct (Study_select_returns scenario_1_study
              ["test_score"; "motivation"; "student_age"] Hnd)
    as (selected & Hsel & Hcols & _).
  exists selected. split; [exact Hsel | exact Hcols].
Defined.

Lemma validate_study_valid_witness :
  exists result,
    validate_study sample_percent scenario_1_study 5 = Ret result
    /\ is_valid result = true
    /\ errors result = [].
Proof.
  destruct (validate_study sample_percent scenario_1_study 5) as [result|e] eqn:E;
    [|vm_compute in E; discriminate E].
  exists result.
  destruct (validate_study_valid sample_percent _ _ _ E)
    as (t_values & y_values & _ & _ & Herrors & _).
  assert (Hvalid : is_valid result = true)
    by (vm_compute in E; injection E as <-; reflexivity).
  split; [reflexivity|]. split; [exact Hvalid|]. apply Herrors. exact Hvalid.
Defined.

Lemma validate_study_enough_rows_witness :
  exists result,
    validate_study sample_percent scenario_1_study 5 = Ret result
    /\ _estimate_effect sample_fit (data scenario_1_study) "received_tutoring"
         "test_score" []
       = (do fitted <- sample_fit OLS (data scenario_1_study) "test_score"
                         ["received_tutoring"];
          at_label (params fitted) "received_tutoring").
Proof.
  destruct (validate_study sample_percent scenario_1_study 5) as [result|e] eqn:E;
    [|vm_compute in E; discriminate E].
  exists result. split; [reflexivity|].
  apply (validate_study_enough_rows sample_percent sample_fit scenario_1_study 5
           result E).
  - vm_compute in E. injection E as <-. reflexivity.
  - lia.
Defined.

Lemma parse_candidates_normalised_witness :
  exists cands,
    parse_candidates sample_loads no_fence sample_repr "answer" = Ret cands
    /\ Forall (fun cand => canonical (name cand)) cands.
Proof.
  destruct (parse_candidates sample_loads no_fence sample_repr "answer")
    as [cands|e] eqn:E; [|vm_compute in E; discriminate E].
  exists cands. split; [reflexivity|].
  pose proof (parse_candidates_normalised sample_loads no_fence sample_repr _ _ E)
    as Hall.
  revert Hall. apply List.Forall_impl. intros cand (_ & Hc & _). exact Hc.
Defined.

Lemma parse_candidates_failures_witness :
  array_loads (clean_response no_fence "[]") = Some (JArray [])
  /\ parse_candidates array_loads no_fence sample_repr "[]"
     = Raise (AttributeError "'list' object has no attribute 'get'").
Proof.
  split; [reflexivity|].
  destruct (parse_candidates_failures array_loads no_fence sample_repr "[]")
    as (_ & _ & Harray & _).
  apply (Harray []). reflexivity.
Defined.

Lemma resolved_model_witness :
  llm_provider sample_settings = OLLAMA
  /\ contains (resolved_model sample_settings) "/" = true.
Proof.
  split; [reflexivity|].
  destruct (resolved_model_spec sample_settings) as (_ & Hslash & _).
  apply Hslash. reflexivity.
Defined.

Lemma complete_first_success_witness :
  (1 <= 3 <= llm_max_retries sample_settings)%nat
  /\ LLMAdapter_complete flaky_completion sample_settings "prompt" (Some "system")
     = (Completed "{}", [1; 2]%nat).
Proof.
  assert (Hk : (1 <= 3 <= llm_max_retries sample_settings)%nat)
    by (vm_compute; lia).
  split; [exact Hk|].
  apply (complete_first_success flaky_completion sample_settings "prompt"
           (Some "system") 3 (Some "{}") Hk).
  - intros j Hj. exists (ValueError "timeout"). unfold flaky_completion.
    replace (j <? 3)%nat with true by (symmetry; apply Nat.ltb_lt; lia).
    reflexivity.
  - reflexivity.
Defined.

Lemma complete_all_fail_witness :
  exists msg,
    LLMAdapter_complete down_completion sample_settings "prompt" None
    = (ConfounderProviderError msg, [1; 2]%nat).
Proof.
  destruct (complete_all_fail down_completion sample_settings "prompt" None)
    as (msg & sleeps & Hrun & Hsleeps & _).
  - intros j _. exists (ValueError "timeout"). reflexivity.
  - exists msg. rewrite Hrun, Hsleeps. reflexivity.
Defined.
